(** * App Configuration Python client SDK: facade, Feature model, API manager

    A shallow embedding of
    - [ibm_appconfiguration/configurations/models/feature.py]   (module [Feature]),
    - [ibm_appconfiguration/configurations/internal/utils/api_manager.py]
      (module [APIManager]),
    - [ibm_appconfiguration/appconfiguration.py]                (module [AppConfiguration]),
    together with the properties of these classes that the specification
    states.

    Python values are an inductive type, dictionaries are association lists in
    insertion order, exceptions are an explicit result type, the logger is a
    list of entries that grows, and the collaborators whose code is not part
    of this development (the validators, the configuration handler,
    [json.dumps], the HTTP transport) are parameters of the sections that use
    them. *)

From Stdlib Require Import String Ascii List Bool ZArith Arith Lia DecimalString.
Import ListNotations.
Local Open Scope string_scope.
Set Warnings "-register-all".

(* ===================================================================== *)
(** * Python values *)
(* ===================================================================== *)

(** Modelled from the spec: [ConfigurationType] ([configuration_type.py] is
    not among the sources).  Section 3 of the specification gives the type of
    a feature as one of BOOLEAN, NUMERIC, STRING; the class is used by
    [Feature.__init__] as an [Enum]: [ConfigurationType.NUMERIC] is a member
    and [ConfigurationType(v)] looks a member up by value. *)
Inductive ConfigurationType : Type := BOOLEAN | NUMERIC | STRING.

Inductive PyVal : Type :=
| PNone
| PBool (b : bool)
| PInt (z : Z)
| PStr (s : string)
| PList (l : list PyVal)
| PDict (d : list (string * PyVal))
| PEnum (c : ConfigurationType)      (* a member of ConfigurationType *)
| PObject (id : nat).                (* any other object, known by identity *)

(** The builtin class [object], the default of [dict.get] for the two value
    fields of a feature. *)
Definition py_object : PyVal := PObject 0.

Inductive PyExc : Type :=
| ValueError
| TypeError
| AttributeError                     (* a method called on None *)
| ApiException (code : Z)
| Exception (what : string)
| SingletonException.                (* Exception("AppConfiguration " + SINGLETON_EXCEPTION) *)

(** Outcome of a call that may raise. *)
Inductive result (A : Type) : Type :=
| Ret (a : A)
| Raise (e : PyExc).
Arguments Ret {A} a.
Arguments Raise {A} e.

Definition is_none (v : PyVal) : bool :=
  match v with PNone => true | _ => false end.

Definition is_dict (v : PyVal) : bool :=
  match v with PDict _ => true | _ => false end.

(** [bool(v)]: the truth value Python's [if v] and [not v] test. *)
Definition truthy (v : PyVal) : bool :=
  match v with
  | PNone => false
  | PBool b => b
  | PInt z => negb (z =? 0)%Z
  | PStr s => negb (s =? "")
  | PList l => match l with [] => false | _ => true end
  | PDict d => match d with [] => false | _ => true end
  | PEnum _ => true
  | PObject _ => true
  end.

(** [v == ""]. *)
Definition eq_empty_str (v : PyVal) : bool :=
  match v with PStr s => s =? "" | _ => false end.

(** [d.get(k)], [d.get(k, default)] and [k in d] on a dictionary. *)
Fixpoint dict_lookup (d : list (string * PyVal)) (k : string) : option PyVal :=
  match d with
  | [] => None
  | (k', v) :: d' => if k' =? k then Some v else dict_lookup d' k
  end.

Definition dict_get (d : list (string * PyVal)) (k : string) (default : PyVal) : PyVal :=
  match dict_lookup d k with Some v => v | None => default end.

(* ===================================================================== *)
(** * The logger and the message constants *)
(* ===================================================================== *)

(** The constants of [config_messages] that the sources name; their texts are
    not needed, only which one is logged. *)
Inductive Msg : Type :=
| REGION_ERROR
| APIKEY_ERROR
| GUID_ERROR
| COLLECTION_INIT_ERROR
| COLLECTION_ID_VALUE_ERROR
| ENVIRONMENT_ID_VALUE_ERROR
| CONFIGURATION_FILE_NOT_FOUND_ERROR
| Text (s : string).

(** One call of [Logger.error] or [Logger.debug]. *)
Inductive LogEntry : Type :=
| LogError (m : Msg)
| LogDebug (m : Msg).

Definition is_error (e : LogEntry) : bool :=
  match e with LogError _ => true | LogDebug _ => false end.

(* ===================================================================== *)
(** * The configuration handler *)
(* ===================================================================== *)

(** [ConfigurationHandler] ([configuration_handler.py]) is a collaborator of
    the classes below and not part of this development.  It is a process-wide
    singleton; the classes below use it through the methods listed here, each
    of which acts on the handler's own state.  [option] in a result is
    Python's [None].  The definitions and theorems below hold for every
    handler with this interface. *)
Class ConfigurationHandler (feature : Type) : Type := {
  handler_state : Type;
  property : Type;
  (* init(apikey, guid, region, override_server_host) *)
  h_init : PyVal -> PyVal -> PyVal -> PyVal -> handler_state -> handler_state;
  (* set_context(collection_id, environment_id, configuration_file,
                 live_config_update_enabled) *)
  h_set_context : PyVal -> PyVal -> PyVal -> PyVal -> handler_state -> handler_state;
  h_load_data : handler_state -> handler_state;
  h_register_configuration_update_listener : PyVal -> handler_state -> handler_state;
  h_get_feature : PyVal -> handler_state -> option feature;
  h_get_features : handler_state -> option (list (string * feature));
  h_get_property : PyVal -> handler_state -> option property;
  h_get_properties : handler_state -> option (list (string * property));
  (* feature_evaluation(feature, entity_id, entity_attributes) *)
  h_feature_evaluation :
    feature -> PyVal -> PyVal -> handler_state -> PyVal * handler_state
}.

(** The calls made on the handler, in the order they are made. *)
Inductive HandlerCall (feature : Type) : Type :=
| CallInit (apikey guid region override_server_host : PyVal)
| CallSetContext (collection_id environment_id configuration_file
                  live_config_update_enabled : PyVal)
| CallLoadData
| CallRegisterListener (listener : PyVal)
| CallGetFeature (feature_id : PyVal)
| CallGetFeatures
| CallGetProperty (property_id : PyVal)
| CallGetProperties
| CallFeatureEvaluation (f : feature) (entity_id entity_attributes : PyVal).
Arguments CallInit {feature}.
Arguments CallSetContext {feature}.
Arguments CallLoadData {feature}.
Arguments CallRegisterListener {feature}.
Arguments CallGetFeature {feature}.
Arguments CallGetFeatures {feature}.
Arguments CallGetProperty {feature}.
Arguments CallGetProperties {feature}.
Arguments CallFeatureEvaluation {feature}.

(** What a method can change outside its own object: the log, the record of
    the calls made on the handler, and the handler's state. *)
Record World {feature : Type} {CH : ConfigurationHandler feature} : Type := mkWorld {
  log : list LogEntry;
  calls : list (HandlerCall feature);
  hstate : handler_state
}.

Section WorldOps.
Context {feature : Type} {CH : ConfigurationHandler feature}.

Definition Logger_error (m : Msg) (w : World) : World :=
  mkWorld feature CH (log w ++ [LogError m]) (calls w) (hstate w).

Definition Logger_debug (m : Msg) (w : World) : World :=
  mkWorld feature CH (log w ++ [LogDebug m]) (calls w) (hstate w).

(** A call on the handler: recorded, and the handler's state updated. *)
Definition handler_call (c : HandlerCall feature)
           (f : handler_state -> handler_state) (w : World) : World :=
  mkWorld feature CH (log w) (calls w ++ [c]) (f (hstate w)).

End WorldOps.

(* ===================================================================== *)
(** * feature.py *)
(* ===================================================================== *)

Module Feature.

Record t : Type := mk {
  enabled : PyVal;
  name : PyVal;
  feature_id : PyVal;
  segment_rules : PyVal;
  feature_data : list (string * PyVal);
  type : ConfigurationType;
  disabled_value : PyVal;
  enabled_value : PyVal
}.

Section Construction.
(** The value of each member of [ConfigurationType] (the class is not among
    the sources, see [ConfigurationType]). *)
Variable member_value : ConfigurationType -> string.

(** [ConfigurationType(v)]: a member is returned as it is, a value is looked
    up among the members' values, anything else is a [ValueError]. *)
Definition ConfigurationType_call (v : PyVal) : result ConfigurationType :=
  match v with
  | PEnum c => Ret c
  | PStr s =>
      if s =? member_value BOOLEAN then Ret BOOLEAN
      else if s =? member_value NUMERIC then Ret NUMERIC
      else if s =? member_value STRING then Ret STRING
      else Raise ValueError
  | _ => Raise ValueError
  end.

(** [Feature.__init__(self, feature_list)] on a dictionary. *)
Definition __init__ (feature_list : list (string * PyVal)) : result t :=
  let enabled := dict_get feature_list "enabled" (PBool false) in
  let name := dict_get feature_list "name" (PStr "") in
  let feature_id := dict_get feature_list "feature_id" (PStr "") in
  let segment_rules := dict_get feature_list "segment_rules" (PList []) in
  let feature_data := feature_list in
  match ConfigurationType_call
          (if negb (is_none (dict_get feature_list "type" PNone))
           then dict_get feature_list "type" PNone
           else PEnum NUMERIC) with
  | Raise e => Raise e
  | Ret type =>
      let disabled_value := dict_get feature_list "disabled_value" py_object in
      let enabled_value := dict_get feature_list "enabled_value" py_object in
      Ret (mk enabled name feature_id segment_rules feature_data type
              disabled_value enabled_value)
  end.

End Construction.

(** The argument [__init__] gives to [ConfigurationType]: the payload's type,
    or the member NUMERIC when the payload has none or has [None]. *)
Definition type_argument (d : list (string * PyVal)) : PyVal :=
  match dict_lookup d "type" with
  | None => PEnum NUMERIC
  | Some PNone => PEnum NUMERIC
  | Some v => v
  end.

Definition get_feature_name (self : t) : PyVal := name self.
Definition get_disabled_value (self : t) : PyVal := disabled_value self.
Definition get_enabled_value (self : t) : PyVal := enabled_value self.
Definition get_feature_id (self : t) : PyVal := feature_id self.
Definition get_feature_data_type (self : t) : ConfigurationType := type self.
Definition is_enabled (self : t) : PyVal := enabled self.
Definition get_segment_rules (self : t) : PyVal := segment_rules self.

Section Evaluation.
Context {CH : ConfigurationHandler t}.

(** [Feature.get_current_value(self, entity_id, entity_attributes)]: the value
    returned and the world after the call. *)
Definition get_current_value (self : t) (entity_id entity_attributes : PyVal)
           (w : World) : PyVal * World :=
  if negb (truthy entity_id) || eq_empty_str entity_id then
    (PNone,
     Logger_error (Text "A valid entity id should be passed for this method.") w)
  else
    let feature_handler := hstate w in
    (fst (h_feature_evaluation self entity_id entity_attributes feature_handler),
     handler_call (CallFeatureEvaluation self entity_id entity_attributes)
       (fun h => snd (h_feature_evaluation self entity_id entity_attributes h)) w).

End Evaluation.

End Feature.

(* ===================================================================== *)
(** * api_manager.py *)
(* ===================================================================== *)

Module APIManager.

(** The arguments of [BaseService.prepare_request]. *)
Record Request : Type := mkRequest {
  method : PyVal;
  url : PyVal;
  headers : list (string * string);
  data : PyVal
}.

(** [DetailedResponse(response=None, headers=None, status_code=None)]. *)
Record DetailedResponse : Type := mkDetailedResponse {
  response : PyVal;
  response_headers : PyVal;
  status_code : PyVal
}.

(** What [prepare_api_request] can change: the log, and the requests handed
    to the base service. *)
Record Net : Type := mkNet {
  net_log : list LogEntry;
  requests : list Request
}.

(** [__remove_null_values(self, dictionary)]. *)
Definition remove_null_values (dictionary : PyVal) : PyVal :=
  match dictionary with
  | PDict d => PDict (filter (fun kv => negb (is_none (snd kv))) d)
  | _ => dictionary
  end.

Section Request.
(** [json.dumps], of Python's standard library. *)
Variable json_dumps : PyVal -> result string.
(** [self.prepare_request(...)] followed by [self.send(request)], of the base
    service: the response, or the exception either of them raises. *)
Variable send_request : Request -> result DetailedResponse.
(** [str(exception)]. *)
Variable str_exc : PyExc -> string.
(** [config_constants.SDK_NAME] and [__version__]. *)
Variables SDK_NAME version : string.

(** Lines 62-67: the headers and the data handed to [prepare_request]. *)
Definition encode (data : PyVal) : result (list (string * string) * PyVal) :=
  let headers : list (string * string) := [] in
  if truthy data && is_dict data then
    let data := remove_null_values data in
    let headers := (headers ++ [("Content-Type", "application/json")])%list in
    let headers := (headers ++ [("User-Agent", (SDK_NAME ++ "/" ++ version)%string)])%list in
    match json_dumps data with
    | Ret s => Ret (headers, PStr s)
    | Raise e => Raise e
    end
  else Ret (headers, data).

(** [prepare_api_request(self, method, url, data)]. *)
Definition prepare_api_request (method url data : PyVal) (n : Net)
  : result DetailedResponse * Net :=
  match encode data with
  | Raise e => (Raise e, n)
  | Ret (headers, data) =>
      let request := mkRequest method url headers data in
      let n := mkNet (net_log n) (requests n ++ [request]) in
      match send_request request with
      | Ret response => (Ret response, n)
      | Raise (ApiException code) =>
          (Ret (mkDetailedResponse PNone PNone (PInt code)), n)
      | Raise exception =>
          (Ret (mkDetailedResponse PNone PNone (PInt 400)),
           mkNet (net_log n ++
                    [LogDebug (Text ("Error in service API call " ++ str_exc exception)%string)])%list
                 (requests n))
      end
  end.

End Request.

End APIManager.

(* ===================================================================== *)
(** * appconfiguration.py *)
(* ===================================================================== *)

Module AppConfiguration.

(** The attributes of an [AppConfiguration] object.  The attribute
    [configuration_handler_instance] is [true] when it holds the handler
    singleton and [false] when it holds [None]. *)
Record t : Type := mk {
  apikey : PyVal;
  region : PyVal;
  configuration_handler_instance : bool;
  guid : PyVal;
  is_initialized : bool;
  is_initialized_configuration : bool;
  is_loading : bool
}.

Section Methods.
Context {CH : ConfigurationHandler Feature.t}.
(** [Validators.validate_string] ([validators.py] is not among the sources). *)
Variable validate_string : PyVal -> bool.
(** The class attribute [override_server_host]. *)
Variable override_server_host : PyVal.

(** The object a method runs on, and the world around it. *)
Record State : Type := mkState {
  self : t;
  world : World
}.

(** ** Methods as resumable computations

    A method runs from a state to its end, or up to the point where it has
    called [load_data] on the handler and waits for it to return: the one
    call of the facade that does network or file I/O, during which listeners
    and other callers can enter the facade again.  [InLoad st k] is a method
    suspended in that call: [st] is the state it left, [k] is the rest of the
    method, run on the state it finds when [load_data] returns. *)
Inductive Run (A : Type) : Type :=
| Done (r : result A) (st : State)
| InLoad (st : State) (k : State -> Run A).
Arguments Done {A} r st.
Arguments InLoad {A} st k.

Definition M (A : Type) : Type := State -> Run A.

Definition ret {A : Type} (a : A) : M A := fun st => Done (Ret a) st.

Fixpoint run_bind {A B : Type} (r : Run A) (f : A -> M B) : Run B :=
  match r with
  | Done (Ret a) st => f a st
  | Done (Raise e) st => Done (Raise e) st
  | InLoad st k => InLoad st (fun st' => run_bind (k st') f)
  end.

Definition bind {A B : Type} (m : M A) (f : A -> M B) : M B :=
  fun st => run_bind (m st) f.

Notation "x <- m ;; k" := (bind m (fun x => k))
  (at level 61, m at next level, right associativity).
Notation "m ;; k" := (bind m (fun _ => k))
  (at level 61, right associativity).

(** A method run with nothing entering the facade while it waits. *)
Fixpoint complete {A : Type} (r : Run A) : result A * State :=
  match r with
  | Done a st => (a, st)
  | InLoad st k => complete (k st)
  end.

Definition get_self : M t := fun st => Done (Ret (self st)) st.

Definition set_self (f : t -> t) : M unit :=
  fun st => Done (Ret tt) (mkState (f (self st)) (world st)).

Definition set_apikey (v : PyVal) : M unit :=
  set_self (fun s => mk v (region s) (configuration_handler_instance s) (guid s)
                        (is_initialized s) (is_initialized_configuration s)
                        (is_loading s)).

Definition set_region (v : PyVal) : M unit :=
  set_self (fun s => mk (apikey s) v (configuration_handler_instance s) (guid s)
                        (is_initialized s) (is_initialized_configuration s)
                        (is_loading s)).

Definition set_configuration_handler_instance (v : bool) : M unit :=
  set_self (fun s => mk (apikey s) (region s) v (guid s)
                        (is_initialized s) (is_initialized_configuration s)
                        (is_loading s)).

Definition set_guid (v : PyVal) : M unit :=
  set_self (fun s => mk (apikey s) (region s) (configuration_handler_instance s) v
                        (is_initialized s) (is_initialized_configuration s)
                        (is_loading s)).

Definition set_is_initialized (v : bool) : M unit :=
  set_self (fun s => mk (apikey s) (region s) (configuration_handler_instance s)
                        (guid s) v (is_initialized_configuration s) (is_loading s)).

Definition set_is_initialized_configuration (v : bool) : M unit :=
  set_self (fun s => mk (apikey s) (region s) (configuration_handler_instance s)
                        (guid s) (is_initialized s) v (is_loading s)).

Definition set_is_loading (v : bool) : M unit :=
  set_self (fun s => mk (apikey s) (region s) (configuration_handler_instance s)
                        (guid s) (is_initialized s)
                        (is_initialized_configuration s) v).

Definition Logger_error (m : Msg) : M unit :=
  fun st => Done (Ret tt) (mkState (self st) (Logger_error m (world st))).

(** A method call on [self.__configuration_handler_instance] that returns at
    once: an [AttributeError] when the attribute is [None]. *)
Definition on_handler (c : HandlerCall Feature.t)
           (f : handler_state -> handler_state) : M unit :=
  fun st =>
    if configuration_handler_instance (self st)
    then Done (Ret tt) (mkState (self st) (handler_call c f (world st)))
    else Done (Raise AttributeError) st.

(** A method call on the handler that returns a value. *)
Definition ask_handler {A : Type} (c : HandlerCall Feature.t)
           (f : handler_state -> A) : M A :=
  fun st =>
    if configuration_handler_instance (self st)
    then Done (Ret (f (hstate (world st))))
              (mkState (self st) (handler_call c (fun h => h) (world st)))
    else Done (Raise AttributeError) st.

(** [self.__configuration_handler_instance.load_data()]: the call is made,
    the method waits, and the load takes effect when the call returns. *)
Definition handler_load_data : M unit :=
  fun st =>
    if configuration_handler_instance (self st)
    then InLoad (mkState (self st) (handler_call CallLoadData (fun h => h) (world st)))
                (fun st' =>
                   Done (Ret tt)
                        (mkState (self st')
                                 (mkWorld _ _ (log (world st')) (calls (world st'))
                                          (h_load_data (hstate (world st'))))))
    else Done (Raise AttributeError) st.

(** ** The methods *)

(** [__init__(self)], after the singleton check: the attributes of a new
    object. *)
Definition new : t :=
  mk (PStr "") (PStr "") false (PStr "") false false false.

(** [__setup_configuration_handler(self)]. *)
Definition setup_configuration_handler : M unit :=
  set_configuration_handler_instance true ;;
  s <- get_self ;;
  on_handler (CallInit (apikey s) (guid s) (region s) override_server_host)
             (h_init (apikey s) (guid s) (region s) override_server_host).

(** [init(self, region, guid, apikey)]. *)
Definition init (region guid apikey : PyVal) : M unit :=
  if negb (validate_string region) then
    Logger_error REGION_ERROR
  else if negb (validate_string apikey) then
    Logger_error APIKEY_ERROR
  else if negb (validate_string guid) then
    Logger_error GUID_ERROR
  else
    set_apikey apikey ;;
    set_region region ;;
    set_guid guid ;;
    set_is_initialized true ;;
    set_is_loading false ;;
    setup_configuration_handler.

Definition get_region : M PyVal := s <- get_self ;; ret (region s).
Definition get_guid : M PyVal := s <- get_self ;; ret (guid s).
Definition get_apikey : M PyVal := s <- get_self ;; ret (apikey s).

(** [__load_data_now(self)]. *)
Definition load_data_now : M unit :=
  s <- get_self ;;
  if is_loading s then
    ret tt
  else
    set_is_loading true ;;
    handler_load_data ;;
    set_is_loading false.

(** [set_context(self, collection_id, environment_id, configuration_file,
    live_config_update_enabled)]. *)
Definition set_context (collection_id environment_id configuration_file
                        live_config_update_enabled : PyVal) : M unit :=
  s <- get_self ;;
  if negb (is_initialized s) then
    Logger_error COLLECTION_INIT_ERROR
  else if negb (validate_string collection_id) then
    Logger_error COLLECTION_ID_VALUE_ERROR
  else if negb (validate_string environment_id) then
    Logger_error ENVIRONMENT_ID_VALUE_ERROR
  else
    set_is_initialized_configuration true ;;
    if negb (truthy live_config_update_enabled) && is_none configuration_file then
      Logger_error CONFIGURATION_FILE_NOT_FOUND_ERROR
    else
      on_handler (CallSetContext collection_id environment_id configuration_file
                                 live_config_update_enabled)
                 (h_set_context collection_id environment_id configuration_file
                                live_config_update_enabled) ;;
      load_data_now.

(** [fetch_configurations(self)]. *)
Definition fetch_configurations : M unit :=
  s <- get_self ;;
  if is_initialized s && is_initialized_configuration s then
    load_data_now
  else
    Logger_error COLLECTION_INIT_ERROR.

(** [register_configuration_update_listener(self, listener)]. *)
Definition register_configuration_update_listener (listener : PyVal) : M unit :=
  s <- get_self ;;
  if is_initialized s && is_initialized_configuration s then
    on_handler (CallRegisterListener listener)
               (h_register_configuration_update_listener listener)
  else
    Logger_error COLLECTION_INIT_ERROR.

(** [get_feature(self, feature_id)]. *)
Definition get_feature (feature_id : PyVal) : M (option Feature.t) :=
  s <- get_self ;;
  if is_initialized s && is_initialized_configuration s then
    ask_handler (CallGetFeature feature_id) (h_get_feature feature_id)
  else
    Logger_error COLLECTION_INIT_ERROR ;;
    ret None.

(** [get_features(self)]. *)
Definition get_features : M (option (list (string * Feature.t))) :=
  s <- get_self ;;
  if is_initialized s && is_initialized_configuration s then
    ask_handler CallGetFeatures h_get_features
  else
    Logger_error COLLECTION_INIT_ERROR ;;
    ret None.

(** [get_properties(self)]. *)
Definition get_properties : M (option (list (string * property))) :=
  s <- get_self ;;
  if is_initialized s && is_initialized_configuration s then
    ask_handler CallGetProperties h_get_properties
  else
    Logger_error COLLECTION_INIT_ERROR ;;
    ret None.

(** [get_property(self, property_id)]. *)
Definition get_property (property_id : PyVal) : M (option property) :=
  s <- get_self ;;
  if is_initialized s && is_initialized_configuration s then
    ask_handler (CallGetProperty property_id) (h_get_property property_id)
  else
    Logger_error COLLECTION_INIT_ERROR ;;
    ret None.

(** ** Callers of the facade *)

(** A call of a public method by a user of the object. *)
Inductive Op : Type :=
| OpInit (region guid apikey : PyVal)
| OpSetContext (collection_id environment_id configuration_file
                live_config_update_enabled : PyVal)
| OpFetchConfigurations
| OpRegisterListener (listener : PyVal)
| OpGetFeature (feature_id : PyVal)
| OpGetFeatures
| OpGetProperties
| OpGetProperty (property_id : PyVal)
| OpGetRegion
| OpGetGuid
| OpGetApikey.

Definition void {A : Type} (m : M A) : M unit := m ;; ret tt.

Definition call (op : Op) : M unit :=
  match op with
  | OpInit r g k => init r g k
  | OpSetContext c e f l => set_context c e f l
  | OpFetchConfigurations => fetch_configurations
  | OpRegisterListener l => register_configuration_update_listener l
  | OpGetFeature i => void (get_feature i)
  | OpGetFeatures => void get_features
  | OpGetProperties => void get_properties
  | OpGetProperty i => void (get_property i)
  | OpGetRegion => void get_region
  | OpGetGuid => void get_guid
  | OpGetApikey => void get_apikey
  end.

(** A session in sequence: every call runs to its end before the next. *)
Definition exec (st : State) (op : Op) : State := snd (complete (call op st)).

Definition exec_all (ops : list Op) (st : State) : State := fold_left exec ops st.

(** ** Calls that arrive while a load is in flight

    The object and the world are shared; [in_flight] holds the methods that
    are suspended in [load_data], one fetch-parse-replace cycle each.  A
    caller enters a method, which runs to its end or joins [in_flight]; or
    the [load_data] call of a suspended method returns and that method runs
    on.  Calls into the facade are serialized, as they are for a listener
    called back by the handler. *)
Record System : Type := mkSystem {
  shared : State;
  in_flight : list (State -> Run unit)
}.

Inductive Event : Type :=
| Enter (op : Op)
| LoadReturns (i : nat).

Fixpoint remove_nth {A : Type} (i : nat) (l : list A) : list A :=
  match l, i with
  | [], _ => []
  | _ :: l', O => l'
  | x :: l', S i' => x :: remove_nth i' l'
  end.

Definition settle (r : Run unit) (waiting : list (State -> Run unit)) : System :=
  match r with
  | Done _ st => mkSystem st waiting
  | InLoad st k => mkSystem st (k :: waiting)
  end.

Definition step (sys : System) (ev : Event) : System :=
  match ev with
  | Enter op => settle (call op (shared sys)) (in_flight sys)
  | LoadReturns i =>
      match nth_error (in_flight sys) i with
      | None => sys
      | Some k => settle (k (shared sys)) (remove_nth i (in_flight sys))
      end
  end.

Definition run_events (evs : list Event) (sys : System) : System :=
  fold_left step evs sys.

(** The state a suspended method finds [load_data] has left, with the flag
    [__is_loading] cleared as line 182 does. *)
Definition load_returned (st : State) : State :=
  mkState (mk (apikey (self st)) (region (self st))
              (configuration_handler_instance (self st)) (guid (self st))
              (is_initialized (self st)) (is_initialized_configuration (self st))
              false)
          (mkWorld _ _ (log (world st)) (calls (world st))
                   (h_load_data (hstate (world st)))).

(** ** The lifecycle of a session, from the calls made on it

    In the words of the specification: [init] completes when its three
    arguments pass validation; [set_context] is attempted when it is called
    on an initialized session with ids that pass validation, and completes
    when it also has a source to load from (live updates, or a file), which
    is when it binds the update source and loads. *)
Definition init_accepts (region guid apikey : PyVal) : bool :=
  validate_string region && validate_string apikey && validate_string guid.

Definition ids_accepted (collection_id environment_id : PyVal) : bool :=
  validate_string collection_id && validate_string environment_id.

Definition source_given (configuration_file live_config_update_enabled : PyVal) : bool :=
  negb (negb (truthy live_config_update_enabled) && is_none configuration_file).

Record Lifecycle : Type := mkLifecycle {
  init_completed : bool;
  context_attempted : bool;
  context_completed : bool
}.

Definition advance (lc : Lifecycle) (op : Op) : Lifecycle :=
  match op with
  | OpInit r g k =>
      if init_accepts r g k
      then mkLifecycle true (context_attempted lc) (context_completed lc)
      else lc
  | OpSetContext c e f l =>
      if init_completed lc && ids_accepted c e
      then mkLifecycle true true (context_completed lc || source_given f l)
      else lc
  | _ => lc
  end.

Definition lifecycle (ops : list Op) : Lifecycle :=
  fold_left advance ops (mkLifecycle false false false).

(** No [init] with valid arguments enters while a load is in flight. *)
Fixpoint calm (evs : list Event) (sys : System) : bool :=
  match evs with
  | [] => true
  | ev :: evs' =>
      match ev with
      | Enter (OpInit r g k) =>
          negb (init_accepts r g k) ||
          match in_flight sys with [] => true | _ => false end
      | _ => true
      end && calm evs' (step sys ev)
  end.

(** The test every method after [set_context] starts with. *)
Definition ready (s : t) : bool :=
  is_initialized s && is_initialized_configuration s.

(** What the attributes of an object say about the calls made on it, when
    each call ran to its end before the next. *)
Definition agrees (lc : Lifecycle) (s : t) : Prop :=
  is_initialized s = init_completed lc /\
  is_initialized_configuration s = context_attempted lc /\
  is_loading s = false /\
  (is_initialized s = true -> configuration_handler_instance s = true) /\
  (context_completed lc = true ->
   context_attempted lc = true /\ init_completed lc = true).

(** The loading flag is set exactly while one method is suspended in
    [load_data], and a suspended method, when resumed, clears the flag and
    ends. *)
Definition orderly (sys : System) : Prop :=
  (is_initialized (self (shared sys)) = true ->
   configuration_handler_instance (self (shared sys)) = true) /\
  length (in_flight sys) = (if is_loading (self (shared sys)) then 1 else 0) /\
  Forall (fun k => forall st, k st = Done (Ret tt) (load_returned st)) (in_flight sys).

(** ** The class: the singleton *)

(** The class attribute [__instance] ([None], or the address of an object),
    the objects of the class by address, and the world. *)
Record Process : Type := mkProcess {
  instance : option nat;
  heap : list t;
  pworld : World
}.

(** [AppConfiguration()]: [__init__] raises when [__instance] is set, and the
    object it was given is dropped; otherwise the new object gets its
    attributes and becomes [__instance]. *)
Definition construct (p : Process) : result nat * Process :=
  match instance p with
  | Some _ => (Raise SingletonException, p)
  | None =>
      let a := length (heap p) in
      (Ret a, mkProcess (Some a) (heap p ++ [new]) (pworld p))
  end.

(** [AppConfiguration.get_instance()]. *)
Definition get_instance (p : Process) : result nat * Process :=
  match instance p with
  | None => construct p
  | Some a => (Ret a, p)
  end.

Fixpoint list_set {A : Type} (i : nat) (x : A) (l : list A) : list A :=
  match l, i with
  | [], _ => []
  | _ :: l', O => x :: l'
  | y :: l', S i' => y :: list_set i' x l'
  end.

(** A method called on the object at address [a]. *)
Definition invoke (a : nat) (op : Op) (p : Process) : Process :=
  match nth_error (heap p) a with
  | None => p
  | Some s =>
      let st := exec (mkState s (pworld p)) op in
      mkProcess (instance p) (list_set a (self st) (heap p)) (world st)
  end.

Inductive ClassOp : Type :=
| GetInstance
| Construct
| Invoke (a : nat) (op : Op).

Definition class_step (p : Process) (c : ClassOp) : Process :=
  match c with
  | GetInstance => snd (get_instance p)
  | Construct => snd (construct p)
  | Invoke a op => invoke a op p
  end.

Definition class_run (cs : list ClassOp) (p : Process) : Process :=
  fold_left class_step cs p.

End Methods.

Arguments Done {CH A} r st.
Arguments InLoad {CH A} st k.

End AppConfiguration.

(* ===================================================================== *)
(** * Concrete collaborators, for the examples *)
(* ===================================================================== *)

Module Models.

(** Modelled from the spec: [Validators.validate_string] ([validators.py] is
    not among the sources).  Section 6: "non-empty strings required". *)
Definition validate_string (v : PyVal) : bool :=
  match v with
  | PStr s => negb (s =? "")
  | _ => false
  end.

(** Modelled from the spec: the values of the members of [ConfigurationType]
    ([configuration_type.py] is not among the sources), taken to be the names
    section 3 gives them. *)
Definition member_value (c : ConfigurationType) : string :=
  match c with
  | BOOLEAN => "BOOLEAN"
  | NUMERIC => "NUMERIC"
  | STRING => "STRING"
  end.

(** The state of the handler model: the context it was bound to, the current
    snapshot of features by id, and the registered listeners. *)
Record Cache : Type := mkCache {
  context : option (PyVal * PyVal);
  features : list (string * Feature.t);
  listeners : list PyVal
}.

Fixpoint find_feature (k : string) (m : list (string * Feature.t)) : option Feature.t :=
  match m with
  | [] => None
  | (k', f) :: m' => if k' =? k then Some f else find_feature k m'
  end.

(** Modelled from the spec: [ConfigurationHandler] ([configuration_handler.py]
    is not among the sources), sections 4.3 and 4.5.  [set_context] binds the
    collection and environment; [load_data] replaces the snapshot by what the
    update source delivers ([delivered]) once a context is bound, and retains
    the snapshot otherwise; the reads are lookups in the current snapshot, an
    unknown id being "not found"; listeners are appended.  Properties are left
    empty and an evaluation returns the value of a feature without targeting
    rules (section 8): no statement below depends on either. *)
Definition cache_handler (delivered : list (string * Feature.t))
  : ConfigurationHandler Feature.t :=
  {| handler_state := Cache;
     property := PyVal;
     h_init := fun _ _ _ _ c => c;
     h_set_context := fun collection_id environment_id _ _ c =>
       mkCache (Some (collection_id, environment_id)) (features c) (listeners c);
     h_load_data := fun c =>
       match context c with
       | Some _ => mkCache (context c) delivered (listeners c)
       | None => c
       end;
     h_register_configuration_update_listener := fun l c =>
       mkCache (context c) (features c) (listeners c ++ [l]);
     h_get_feature := fun id c =>
       match id with
       | PStr k => find_feature k (features c)
       | _ => None
       end;
     h_get_features := fun c => Some (features c);
     h_get_property := fun _ _ => None;
     h_get_properties := fun _ => Some [];
     h_feature_evaluation := fun f _ _ c =>
       (if truthy (Feature.enabled f) then Feature.enabled_value f
        else Feature.disabled_value f, c) |}.

(** The feature [f1] of section 8: BOOLEAN, enabled, no targeting rules. *)
Definition f1_payload : list (string * PyVal) :=
  [("feature_id", PStr "f1"); ("name", PStr "f1"); ("type", PStr "BOOLEAN");
   ("enabled", PBool true); ("enabled_value", PBool true);
   ("disabled_value", PBool false)].

Definition f1 : Feature.t :=
  Feature.mk (PBool true) (PStr "f1") (PStr "f1") (PList []) f1_payload BOOLEAN
             (PBool false) (PBool true).

(** A handler whose update source delivers [f1]. *)
Definition handler : ConfigurationHandler Feature.t := cache_handler [("f1", f1)].

Definition empty_cache : Cache := mkCache None [] [].

(** The world of a new process: nothing logged, no call made. *)
Definition world0 : @World Feature.t handler := mkWorld Feature.t handler [] [] empty_cache.

(** A new [AppConfiguration] object in a new process. *)
Definition session0 : @AppConfiguration.State handler :=
  AppConfiguration.mkState AppConfiguration.new world0.

(** The calls of the test suite: a valid [init], [set_context] in offline mode
    with a file, and in live mode; and [set_context] in offline mode without
    a file. *)
Definition init_us_south : AppConfiguration.Op :=
  AppConfiguration.OpInit (PStr "us-south") (PStr "guid_value") (PStr "apikey_value").

Definition context_from_file : AppConfiguration.Op :=
  AppConfiguration.OpSetContext (PStr "collectionId") (PStr "environmentId")
                                (PStr "user.json") (PBool false).

Definition context_live : AppConfiguration.Op :=
  AppConfiguration.OpSetContext (PStr "collectionId") (PStr "environmentId")
                                PNone (PBool true).

Definition context_without_file : AppConfiguration.Op :=
  AppConfiguration.OpSetContext (PStr "collectionId") (PStr "environmentId")
                                PNone (PBool false).

(** A process in which [get_instance] has been called once. *)
Definition process1 : @AppConfiguration.Process handler :=
  AppConfiguration.mkProcess (Some 0) [AppConfiguration.new] world0.

(** ** [json.dumps] and a transport *)

Definition quote : string := String (Ascii.ascii_of_nat 34) EmptyString.
Definition backslash : string := String (Ascii.ascii_of_nat 92) EmptyString.

(** The quote and the backslash are escaped; the examples below hold no other
    character that [json.dumps] would escape. *)
Fixpoint escape (s : string) : string :=
  match s with
  | EmptyString => EmptyString
  | String c s' =>
      if Ascii.eqb c (Ascii.ascii_of_nat 34) then backslash ++ quote ++ escape s'
      else if Ascii.eqb c (Ascii.ascii_of_nat 92) then backslash ++ backslash ++ escape s'
      else String c (escape s')
  end.

Definition json_string (s : string) : string := quote ++ escape s ++ quote.

Definition json_int (z : Z) : string :=
  DecimalString.NilZero.string_of_int (Z.to_int z).

(** [json.dumps] with its default arguments on the values of [PyVal]: the
    items of a list or a dictionary are joined by a comma and a space, key and
    value by a colon and a space; an object that is not JSON serializable is a
    [TypeError]. *)
Fixpoint json_dumps (v : PyVal) : result string :=
  match v with
  | PNone => Ret "null"
  | PBool true => Ret "true"
  | PBool false => Ret "false"
  | PInt z => Ret (json_int z)
  | PStr s => Ret (json_string s)
  | PList l =>
      match
        (fix items (l : list PyVal) : result (list string) :=
           match l with
           | [] => Ret []
           | x :: l' =>
               match json_dumps x, items l' with
               | Ret a, Ret b => Ret (a :: b)
               | Raise e, _ => Raise e
               | _, Raise e => Raise e
               end
           end) l
      with
      | Ret parts => Ret ("[" ++ String.concat ", " parts ++ "]")
      | Raise e => Raise e
      end
  | PDict d =>
      match
        (fix items (d : list (string * PyVal)) : result (list string) :=
           match d with
           | [] => Ret []
           | (k, x) :: d' =>
               match json_dumps x, items d' with
               | Ret a, Ret b => Ret ((json_string k ++ ": " ++ a) :: b)
               | Raise e, _ => Raise e
               | _, Raise e => Raise e
               end
           end) d
      with
      | Ret parts => Ret ("{" ++ String.concat ", " parts ++ "}")
      | Raise e => Raise e
      end
  | PEnum _ => Raise TypeError
  | PObject _ => Raise TypeError
  end.

(** A transport for the examples: the service answers 200, is unreachable at
    the url "down" (an [ApiException] with code 503), and the connection
    fails at the url "reset". *)
Definition send_request (r : APIManager.Request) : result APIManager.DetailedResponse :=
  match APIManager.url r with
  | PStr "down" => Raise (ApiException 503)
  | PStr "reset" => Raise (Exception "Connection reset by peer")
  | _ => Ret (APIManager.mkDetailedResponse (PDict []) (PDict []) (PInt 200))
  end.

Definition str_exc (e : PyExc) : string :=
  match e with
  | Exception what => what
  | _ => ""
  end.

Definition net0 : APIManager.Net := APIManager.mkNet [] [].

End Models.

(* ===================================================================== *)
(** * api_exception.py *)
(* ===================================================================== *)

Module ApiException.

(** What a step of [_get_error_message] gives: a value, or an exception of
    the named class.  The method catches every exception alike. *)
Inductive outcome (A : Type) : Type :=
| Value (a : A)
| Raised (exception_class : string).
Arguments Value {A} a.
Arguments Raised {A} exception_class.

(** The parts of a [requests.Response] the class reads: what [json()] gives,
    [text] and [status_code]. *)
Record Response : Type := mkResponse {
  json : outcome PyVal;
  text : string;
  status_code : Z
}.

Record t : Type := mk {
  message : PyVal;
  code : PyVal;
  http_response : option Response
}.

Definition is_list (v : PyVal) : bool :=
  match v with PList _ => true | _ => false end.

(** [needle in hay] on strings. *)
Fixpoint is_substring (needle hay : string) : bool :=
  String.prefix needle hay ||
  match hay with
  | EmptyString => false
  | String _ hay' => is_substring needle hay'
  end.

(** [k in v]: a key of a dictionary, an item of a list, a substring of a
    string; a [TypeError] on a value that is not a container. *)
Definition contains (v : PyVal) (k : string) : outcome bool :=
  match v with
  | PDict d => Value (match dict_lookup d k with Some _ => true | None => false end)
  | PList l => Value (existsb (fun x => match x with PStr s => s =? k | _ => false end) l)
  | PStr s => Value (is_substring k s)
  | _ => Raised "TypeError"
  end.

(** [v[k]] with a string [k]. *)
Definition get_item (v : PyVal) (k : string) : outcome PyVal :=
  match v with
  | PDict d =>
      match dict_lookup d k with
      | Some x => Value x
      | None => Raised "KeyError"
      end
  | _ => Raised "TypeError"
  end.

(** [v[0]]. *)
Definition first_item (v : PyVal) : outcome PyVal :=
  match v with
  | PList (x :: _) => Value x
  | PList [] => Raised "IndexError"
  | PStr (String c _) => Value (PStr (String c EmptyString))
  | PStr EmptyString => Raised "IndexError"
  | PDict _ => Raised "KeyError"
  | _ => Raised "TypeError"
  end.

(** [err.get(k)]. *)
Definition get (err : PyVal) (k : string) : outcome PyVal :=
  match err with
  | PDict d => Value (dict_get d k PNone)
  | _ => Raised "AttributeError"
  end.

Definition and_then {A B : Type} (o : outcome A) (f : A -> outcome B) : outcome B :=
  match o with
  | Value a => f a
  | Raised c => Raised c
  end.

Definition unknown_error : PyVal := PStr "Unknown error".

Definition unauthorized : PyVal :=
  PStr "Unauthorized: Access is denied due to invalid credentials".

(** The body of the [try] of [_get_error_message], lines 47-60. *)
Definition try_error_message (response : Response) : outcome PyVal :=
  let error_message := unknown_error in
  and_then (json response) (fun error_json =>
  and_then (contains error_json "errors") (fun has_errors =>
  if has_errors then
    and_then (get_item error_json "errors") (fun errors =>
    if is_list errors then
      and_then (get_item error_json "errors") (fun errors =>
      and_then (first_item errors) (fun err =>
      and_then (get err "message") (fun error_message =>
      Value error_message)))
    else Value error_message)
  else
  and_then (contains error_json "error") (fun has_error =>
  if has_error then
    and_then (get_item error_json "error") (fun error_message =>
    Value error_message)
  else
  and_then (contains error_json "message") (fun has_message =>
  if has_message then
    and_then (get_item error_json "message") (fun error_message =>
    Value error_message)
  else
  and_then (contains error_json "errorMessage") (fun has_errorMessage =>
  if has_errorMessage then
    and_then (get_item error_json "errorMessage") (fun error_message =>
    Value error_message)
  else if (status_code response =? 401)%Z then
    Value unauthorized
  else Value error_message))))).

(** [response.text or error_message] of line 62, where [error_message] is
    still the initial one: every step that can raise comes before the
    assignment it feeds. *)
Definition text_or_unknown (response : Response) : PyVal :=
  if negb (text response =? "") then PStr (text response) else unknown_error.

(** [_get_error_message(response)]. *)
Definition _get_error_message (response : Response) : PyVal :=
  match try_error_message response with
  | Value error_message => error_message
  | Raised _ => text_or_unknown response
  end.

(** [__init__(self, code, message, http_response)]. *)
Definition __init__ (code message : PyVal) (http_response : option Response) : t :=
  match http_response with
  | Some response =>
      mk (if truthy message then message else _get_error_message response)
         code http_response
  | None => mk message code http_response
  end.

Section Str.
(** The builtin [str]. *)
Variable str : PyVal -> string.

(** [__str__(self)]. *)
Definition __str__ (self : t) : string :=
  "Error: " ++ str (message self) ++ ", Code: " ++ str (code self).
End Str.

End ApiException.

(* ===================================================================== *)
(** * api_manager.py: the class *)
(* ===================================================================== *)

Module APIManagerClass.

(** The class attribute [__instance], the number of [APIManager] objects
    constructed so far (an object is known by its rank), and the log. *)
Record Class : Type := mkClass {
  instance : option nat;
  constructed : nat;
  class_log : list LogEntry
}.

(** [APIManager()]: [__init__] logs and assigns nothing, [__instance]
    included. *)
Definition __init__ (c : Class) : nat * Class :=
  (constructed c,
   mkClass (instance c) (S (constructed c))
           (class_log c ++ [LogDebug (Text "Initialised _BaseRequest")])%list).

(** [APIManager.get_instance()]. *)
Definition get_instance (c : Class) : nat * Class :=
  match instance c with
  | None => __init__ c
  | Some a => (a, c)
  end.

(** [n] calls of [get_instance] in a row: the objects returned, in order. *)
Fixpoint get_instances (n : nat) (c : Class) : list nat * Class :=
  match n with
  | O => ([], c)
  | S n' =>
      let (a, c1) := get_instance c in
      let (l, c2) := get_instances n' c1 in
      (a :: l, c2)
  end.

End APIManagerClass.

(* ===================================================================== *)
(** * Sessions of the facade, by the calls made *)
(* ===================================================================== *)

Module Session.

Section Credentials.
Variable validate_string : PyVal -> bool.

(** The region, guid and apikey of the last [init] whose arguments pass
    validation, the empty strings of [__init__] when there is none. *)
Definition remember (acc : PyVal * PyVal * PyVal) (op : AppConfiguration.Op)
  : PyVal * PyVal * PyVal :=
  match op with
  | AppConfiguration.OpInit r g k =>
      if AppConfiguration.init_accepts validate_string r g k then (r, g, k) else acc
  | _ => acc
  end.

Definition credentials (ops : list AppConfiguration.Op) : PyVal * PyVal * PyVal :=
  fold_left remember ops (PStr "", PStr "", PStr "").

End Credentials.

(** The region, guid and apikey an object stores. *)
Definition stored (s : AppConfiguration.t) : PyVal * PyVal * PyVal :=
  (AppConfiguration.region s, AppConfiguration.guid s, AppConfiguration.apikey s).

End Session.

(* ===================================================================== *)
(** * Concrete inputs, for the examples of the later sections *)
(* ===================================================================== *)

Module Examples.

(** A 401 whose body lists errors, beside an 'error' entry. *)
Definition response_errors : ApiException.Response :=
  ApiException.mkResponse
    (ApiException.Value
       (PDict [("errors",
                PList [PDict [("code", PStr "invalid_key");
                              ("message", PStr "The API key is not valid")]]);
               ("error", PStr "Unauthorized")]))
    "body" 401.

(** A 404 whose body has a 'message' and an 'errorMessage'. *)
Definition response_message : ApiException.Response :=
  ApiException.mkResponse
    (ApiException.Value
       (PDict [("errorMessage", PStr "no such collection");
               ("message", PStr "Not Found")]))
    "body" 404.

(** A 502 whose body is not JSON. *)
Definition response_html : ApiException.Response :=
  ApiException.mkResponse (ApiException.Raised "JSONDecodeError") "Bad Gateway" 502.

(** The class [APIManager] before any call. *)
Definition api_manager0 : APIManagerClass.Class := APIManagerClass.mkClass None 0 [].

(** The session of the test suite after [init] and [set_context] with a
    file. *)
Definition loaded_session : @AppConfiguration.State Models.handler :=
  AppConfiguration.exec_all Models.validate_string PNone
    [Models.init_us_south; Models.context_from_file] Models.session0.

(** The same session after [init] alone. *)
Definition initialized_session : @AppConfiguration.State Models.handler :=
  AppConfiguration.exec_all Models.validate_string PNone
    [Models.init_us_south] Models.session0.

(** A payload with [None] for every field. *)
Definition payload_of_nones : list (string * PyVal) :=
  [("enabled", PNone); ("name", PNone); ("feature_id", PNone);
   ("segment_rules", PNone); ("type", PNone)].

End Examples.

Local Open Scope list_scope.

(* ===================================================================== *)
(** * Properties of the Feature model *)
(* ===================================================================== *)

Section FeatureConstruction.
Variable member_value : ConfigurationType -> string.

Lemma dict_get_present (d : list (string * PyVal)) (k : string) (v default : PyVal) :
  dict_lookup d k = Some v -> dict_get d k default = v.
Proof. unfold dict_get. intros ->. reflexivity. Qed.

Lemma dict_get_absent (d : list (string * PyVal)) (k : string) (default : PyVal) :
  dict_lookup d k = None -> dict_get d k default = default.
Proof. unfold dict_get. intros ->. reflexivity. Qed.

Lemma init_type_argument (d : list (string * PyVal)) :
  (if negb (is_none (dict_get d "type" PNone)) then dict_get d "type" PNone
   else PEnum NUMERIC) = Feature.type_argument d.
Proof.
  unfold Feature.type_argument, dict_get.
  destruct (dict_lookup d "type") as [v|]; [destruct v|]; reflexivity.
Qed.

(** A payload whose type is not the value of a member is rejected. *)
Lemma init_rejects_unknown_type (d : list (string * PyVal)) (e : PyExc) :
  Feature.ConfigurationType_call member_value (Feature.type_argument d) = Raise e ->
  Feature.__init__ member_value d = Raise e.
Proof.
  intros H. unfold Feature.__init__. rewrite init_type_argument, H. reflexivity.
Qed.

(** C5, as the code has it: for every payload dictionary [d] whose 'type' is
    absent, [None], or the value of a member of [ConfigurationType],
    [Feature(d)] is constructed, and in it [enabled] is [False] when absent,
    [segment_rules] is the empty list when absent, [name] and [feature_id]
    are the empty string when absent, the type is NUMERIC when 'type' is
    absent or [None]; a field that is present has its payload value unchanged,
    except that the type is the member of [ConfigurationType] with the
    payload's value. *)
Theorem init_applies_defaults (d : list (string * PyVal)) (c : ConfigurationType) :
  Feature.ConfigurationType_call member_value (Feature.type_argument d) = Ret c ->
  exists f,
    Feature.__init__ member_value d = Ret f /\
    Feature.type f = c /\
    Feature.feature_data f = d /\
    (* defaults for absent fields *)
    (dict_lookup d "enabled" = None -> Feature.enabled f = PBool false) /\
    (dict_lookup d "segment_rules" = None -> Feature.segment_rules f = PList []) /\
    (dict_lookup d "type" = None \/ dict_lookup d "type" = Some PNone ->
     Feature.type f = NUMERIC) /\
    (dict_lookup d "name" = None -> Feature.name f = PStr "") /\
    (dict_lookup d "feature_id" = None -> Feature.feature_id f = PStr "") /\
    (* fields that are present *)
    (forall v, dict_lookup d "enabled" = Some v -> Feature.enabled f = v) /\
    (forall v, dict_lookup d "segment_rules" = Some v -> Feature.segment_rules f = v) /\
    (forall v, dict_lookup d "name" = Some v -> Feature.name f = v) /\
    (forall v, dict_lookup d "feature_id" = Some v -> Feature.feature_id f = v) /\
    (forall v, dict_lookup d "type" = Some v -> v <> PNone ->
               Feature.ConfigurationType_call member_value v = Ret (Feature.type f)).
Proof.
  intros Hc. unfold Feature.__init__. rewrite init_type_argument, Hc.
  eexists. split; [reflexivity|]. cbn [Feature.enabled Feature.segment_rules
    Feature.type Feature.name Feature.feature_id Feature.feature_data].
  do 2 (split; [reflexivity|]).
  repeat split; intros.
  - apply dict_get_absent; assumption.
  - apply dict_get_absent; assumption.
  - unfold Feature.type_argument in Hc.
    destruct H as [H|H]; rewrite H in Hc; cbn in Hc; congruence.
  - apply dict_get_absent; assumption.
  - apply dict_get_absent; assumption.
  - apply dict_get_present; assumption.
  - apply dict_get_present; assumption.
  - apply dict_get_present; assumption.
  - apply dict_get_present; assumption.
  - unfold Feature.type_argument in Hc. rewrite H in Hc.
    destruct v; try congruence; assumption.
Qed.

End FeatureConstruction.

(** The payload of [f1] is accepted, and the fields come out as stated. *)
Lemma init_applies_defaults_witness :
  exists f,
    Feature.__init__ Models.member_value Models.f1_payload = Ret f /\
    Feature.segment_rules f = PList [] /\
    Feature.enabled f = PBool true /\
    Feature.type f = BOOLEAN.
Proof.
  destruct (init_applies_defaults Models.member_value Models.f1_payload BOOLEAN)
    as (f & Hf & Hty & _ & _ & Hrules & _ & _ & _ & Hen & _).
  - reflexivity.
  - exists f. split; [exact Hf|]. split; [apply Hrules; reflexivity|].
    split; [apply Hen; reflexivity|]. exact Hty.
Defined.

(** C5 as stated fails: a payload whose 'type' is not the value of a member
    of [ConfigurationType] constructs no [Feature] at all, [__init__] raises
    [ValueError]. *)
Lemma init_unknown_type_raises :
  Feature.__init__ Models.member_value [("type", PStr "number")] = Raise ValueError /\
  ~ (exists f, Feature.__init__ Models.member_value [("type", PStr "number")] = Ret f).
Proof.
  split; [reflexivity|]. intros [f Hf]. vm_compute in Hf. discriminate.
Qed.

Section FeatureEvaluation.
Context {CH : ConfigurationHandler Feature.t}.

(** C1: [get_current_value] with an entity id that is [None] or the empty
    string returns [None]; the only effect is one error in the log: no call
    is made on the handler and the handler's state is as before.  (The
    feature is a value the method cannot change, and the model of the method
    has no exception to raise.) *)
Theorem get_current_value_without_entity_id
        (self : Feature.t) (entity_id entity_attributes : PyVal) (w : World) :
  entity_id = PNone \/ entity_id = PStr "" ->
  Feature.get_current_value self entity_id entity_attributes w =
    (PNone,
     mkWorld Feature.t CH
       (log w ++ [LogError (Text "A valid entity id should be passed for this method.")])
       (calls w) (hstate w)).
Proof.
  intros [-> | ->]; reflexivity.
Qed.

(** With an entity id, the evaluation is the handler's. *)
Lemma get_current_value_delegates
      (self : Feature.t) (entity_id entity_attributes : PyVal) (w : World) :
  truthy entity_id = true ->
  fst (Feature.get_current_value self entity_id entity_attributes w) =
    fst (h_feature_evaluation self entity_id entity_attributes (hstate w)) /\
  calls (snd (Feature.get_current_value self entity_id entity_attributes w)) =
    calls w ++ [CallFeatureEvaluation self entity_id entity_attributes].
Proof.
  intros Ht. unfold Feature.get_current_value.
  assert (eq_empty_str entity_id = false) as ->.
  { destruct entity_id; try reflexivity. cbn in *.
    destruct (s =? "")%string; [discriminate | reflexivity]. }
  rewrite Ht. cbn. split; reflexivity.
Qed.

End FeatureEvaluation.

Lemma get_current_value_without_entity_id_witness :
  Feature.get_current_value (CH := Models.handler) Models.f1 (PStr "") (PDict [])
                            Models.world0 =
    (PNone,
     mkWorld Feature.t Models.handler
       [LogError (Text "A valid entity id should be passed for this method.")]
       [] Models.empty_cache).
Proof.
  apply (get_current_value_without_entity_id (CH := Models.handler)
           Models.f1 (PStr "") (PDict []) Models.world0).
  right; reflexivity.
Defined.

(* ===================================================================== *)
(** * Properties of the facade *)
(* ===================================================================== *)

Section Facade.
Context {CH : ConfigurationHandler Feature.t}.
Variable validate_string : PyVal -> bool.
Variable override_server_host : PyVal.

Import AppConfiguration.

Local Abbreviation init := (AppConfiguration.init validate_string override_server_host).
Local Abbreviation set_context := (AppConfiguration.set_context validate_string).
Local Abbreviation State := (@AppConfiguration.State CH).
Local Abbreviation exec := (AppConfiguration.exec validate_string override_server_host).
Local Abbreviation exec_all := (AppConfiguration.exec_all validate_string override_server_host).
Local Abbreviation lifecycle := (AppConfiguration.lifecycle validate_string).
Local Abbreviation advance := (AppConfiguration.advance validate_string).

(** The world with one more error in the log and nothing else changed. *)
Local Abbreviation logged m w :=
  (mkWorld Feature.t CH (log w ++ [LogError m]) (calls w) (hstate w)).

(** ** [init] *)

(** C3: when [region], [guid] or [apikey] fails validation, [init] returns
    normally, the object is left as it was (so the stored apikey, region and
    guid and the initialized flag keep their values), one error is logged, and
    no call is made on the handler: no handler is set up. *)
Theorem init_invalid_argument (region guid apikey : PyVal) (st : State) :
  validate_string region = false \/ validate_string guid = false \/
  validate_string apikey = false ->
  exists m,
    init region guid apikey st =
      Done (Ret tt) (mkState (self st) (logged m (world st))).
Proof.
  intros H. unfold AppConfiguration.init.
  destruct (validate_string region) eqn:Hr; cbn.
  2: { exists REGION_ERROR. reflexivity. }
  destruct (validate_string apikey) eqn:Hk; cbn.
  2: { exists APIKEY_ERROR. reflexivity. }
  destruct (validate_string guid) eqn:Hg; cbn.
  2: { exists GUID_ERROR. reflexivity. }
  destruct H as [H | [H | H]]; discriminate.
Qed.

(** With valid arguments, [init] stores them, sets the initialized flag,
    clears the loading flag and initializes the handler. *)
Lemma init_valid_arguments (region guid apikey : PyVal) (st : State) :
  init_accepts validate_string region guid apikey = true ->
  init region guid apikey st =
    Done (Ret tt)
      (mkState (mk apikey region true guid true
                   (is_initialized_configuration (self st)) false)
               (handler_call (CallInit apikey guid region override_server_host)
                             (h_init apikey guid region override_server_host)
                             (world st))).
Proof.
  unfold init_accepts, AppConfiguration.init. intros H.
  apply andb_true_iff in H as [H Hg]. apply andb_true_iff in H as [Hr Hk].
  rewrite Hr, Hk, Hg. reflexivity.
Qed.

(** ** The reads *)

(** Before both flags are set, each read logs an error and returns [None];
    nothing else changes. *)
Lemma reads_before_flags (st : State) :
  ready (self st) = false ->
  (forall id, get_feature id st =
     Done (Ret None) (mkState (self st) (logged COLLECTION_INIT_ERROR (world st)))) /\
  get_features st =
     Done (Ret None) (mkState (self st) (logged COLLECTION_INIT_ERROR (world st))) /\
  (forall id, get_property id st =
     Done (Ret None) (mkState (self st) (logged COLLECTION_INIT_ERROR (world st)))) /\
  get_properties st =
     Done (Ret None) (mkState (self st) (logged COLLECTION_INIT_ERROR (world st))).
Proof.
  unfold ready, get_feature, get_features, get_property, get_properties.
  intros H. cbn. rewrite H. cbn. repeat split.
Qed.

(** Once both flags are set (and the handler is there), each read is the
    handler's and logs nothing. *)
Lemma reads_after_flags (st : State) :
  ready (self st) = true ->
  configuration_handler_instance (self st) = true ->
  (forall id, get_feature id st =
     Done (Ret (h_get_feature id (hstate (world st))))
          (mkState (self st) (handler_call (CallGetFeature id) (fun h => h) (world st)))) /\
  get_features st =
     Done (Ret (h_get_features (hstate (world st))))
          (mkState (self st) (handler_call CallGetFeatures (fun h => h) (world st))) /\
  (forall id, get_property id st =
     Done (Ret (h_get_property id (hstate (world st))))
          (mkState (self st) (handler_call (CallGetProperty id) (fun h => h) (world st)))) /\
  get_properties st =
     Done (Ret (h_get_properties (hstate (world st))))
          (mkState (self st) (handler_call CallGetProperties (fun h => h) (world st))).
Proof.
  unfold ready, get_feature, get_features, get_property, get_properties,
    ask_handler.
  intros H Hh. cbn. rewrite H. cbn. rewrite Hh. repeat split.
Qed.

(** ** [set_context] without a source *)

(** [set_context] with [live_config_update_enabled=False] and
    [configuration_file=None], on any session: it returns normally, logs one
    error and makes no call on the handler, so that no update source is bound
    and no snapshot is loaded; the stored credentials, the initialized flag
    and the loading flag are as before.  When the call stops before its ids
    are accepted and no earlier call got further, the reads that follow log
    an error and return [None]. *)
Lemma set_context_without_file (collection_id environment_id : PyVal) (st : State) :
  exists m st',
    set_context collection_id environment_id PNone (PBool false) st = Done (Ret tt) st' /\
    world st' = logged m (world st) /\
    apikey (self st') = apikey (self st) /\
    region (self st') = region (self st) /\
    guid (self st') = guid (self st) /\
    configuration_handler_instance (self st') =
      configuration_handler_instance (self st) /\
    is_initialized (self st') = is_initialized (self st) /\
    is_loading (self st') = is_loading (self st) /\
    (is_initialized (self st) = false \/
     (ids_accepted validate_string collection_id environment_id = false /\
      is_initialized_configuration (self st) = false) ->
     (forall id, get_feature id st' =
        Done (Ret None) (mkState (self st') (logged COLLECTION_INIT_ERROR (world st')))) /\
     get_features st' =
        Done (Ret None) (mkState (self st') (logged COLLECTION_INIT_ERROR (world st'))) /\
     (forall id, get_property id st' =
        Done (Ret None) (mkState (self st') (logged COLLECTION_INIT_ERROR (world st')))) /\
     get_properties st' =
        Done (Ret None) (mkState (self st') (logged COLLECTION_INIT_ERROR (world st')))).
Proof.
  destruct st as [[a r h g i c l] w].
  unfold AppConfiguration.set_context, ids_accepted. cbn.
  destruct i; cbn.
  - destruct (validate_string collection_id); cbn.
    + destruct (validate_string environment_id); cbn.
      * eexists _, _. split; [reflexivity|]. cbn. repeat split;
          destruct H as [H | [H _]]; discriminate.
      * eexists _, _. split; [reflexivity|]. cbn.
        do 7 (split; [reflexivity|]).
        intros [H | [_ ->]]; [discriminate|]. repeat split.
    + eexists _, _. split; [reflexivity|]. cbn.
      do 7 (split; [reflexivity|]).
      intros [H | [_ ->]]; [discriminate|]. repeat split.
  - eexists _, _. split; [reflexivity|]. cbn.
    do 7 (split; [reflexivity|]).
    intros _. repeat split.
Qed.

(** On an initialized session, a [set_context] whose ids are accepted and
    that is then refused for want of a configuration file has already set the
    context flag: the id checks of lines 145-151 return before line 153, the
    file check of lines 154-156 after it. *)
Lemma refused_set_context_sets_flag (collection_id environment_id : PyVal) (st : State) :
  is_initialized (self st) = true ->
  ids_accepted validate_string collection_id environment_id = true ->
  exists st',
    set_context collection_id environment_id PNone (PBool false) st = Done (Ret tt) st' /\
    world st' = logged CONFIGURATION_FILE_NOT_FOUND_ERROR (world st) /\
    is_initialized (self st') = true /\
    is_initialized_configuration (self st') = true.
Proof.
  destruct st as [[a r h g i c l] w]. unfold ids_accepted. cbn.
  intros -> Hids. apply andb_true_iff in Hids as [Hc He].
  unfold AppConfiguration.set_context. cbn. rewrite Hc, He. cbn.
  eexists. split; [reflexivity|]. cbn. repeat split.
Qed.

(** ** Sessions in sequence *)

(** Every call keeps the attributes in step with the lifecycle. *)
Lemma exec_agrees (lc : Lifecycle) (st : State) (op : Op) :
  agrees lc (self st) -> agrees (advance lc op) (self (exec st op)).
Proof.
  destruct st as [[a r h g i c l] w]. destruct lc as [li la lcpl].
  unfold agrees. cbn. intros (-> & -> & -> & Hh & Hc).
  destruct op; unfold AppConfiguration.exec, AppConfiguration.advance; cbn.
  - unfold AppConfiguration.init, init_accepts.
    destruct (validate_string region0); cbn; [|tauto].
    destruct (validate_string apikey0); cbn; [|tauto].
    destruct (validate_string guid0); cbn; [|tauto].
    repeat split; try tauto.
  - unfold AppConfiguration.set_context, ids_accepted, source_given. cbn.
    destruct li; cbn; [|tauto].
    destruct (validate_string collection_id); cbn; [|tauto].
    destruct (validate_string environment_id); cbn; [|tauto].
    destruct (negb (truthy live_config_update_enabled) && is_none configuration_file) eqn:E; cbn.
    + rewrite orb_false_r. repeat split; try tauto.
    + unfold on_handler, load_data_now. cbn. rewrite (Hh eq_refl). cbn. 
      rewrite orb_true_r. repeat split; try tauto.
  - unfold fetch_configurations, load_data_now, handler_load_data. cbn.
    destruct (li && la) eqn:E; cbn; [|tauto].
    apply andb_true_iff in E as [-> ->]. rewrite (Hh eq_refl). cbn. tauto.
  - unfold register_configuration_update_listener, on_handler. cbn.
    destruct (li && la) eqn:E; cbn; [|tauto].
    apply andb_true_iff in E as [-> ->]. rewrite (Hh eq_refl). cbn. tauto.
  - unfold void, get_feature, ask_handler. cbn.
    destruct (li && la) eqn:E; cbn; [|tauto].
    apply andb_true_iff in E as [-> ->]. rewrite (Hh eq_refl). cbn. tauto.
  - unfold void, get_features, ask_handler. cbn.
    destruct (li && la) eqn:E; cbn; [|tauto].
    apply andb_true_iff in E as [-> ->]. rewrite (Hh eq_refl). cbn. tauto.
  - unfold void, get_properties, ask_handler. cbn.
    destruct (li && la) eqn:E; cbn; [|tauto].
    apply andb_true_iff in E as [-> ->]. rewrite (Hh eq_refl). cbn. tauto.
  - unfold void, get_property, ask_handler. cbn.
    destruct (li && la) eqn:E; cbn; [|tauto].
    apply andb_true_iff in E as [-> ->]. rewrite (Hh eq_refl). cbn. tauto.
  - cbn. tauto.
  - cbn. tauto.
  - cbn. tauto.
Qed.

Lemma exec_all_agrees (ops : list Op) (lc : Lifecycle) (st : State) :
  agrees lc (self st) ->
  agrees (fold_left advance ops lc) (self (exec_all ops st)).
Proof.
  revert lc st. induction ops as [|op ops IH]; intros lc st H; cbn; [exact H|].
  apply IH. apply exec_agrees. exact H.
Qed.

Lemma new_agrees : agrees (mkLifecycle false false false) AppConfiguration.new.
Proof. unfold agrees; cbn. repeat split; discriminate. Qed.


(** On a session on which [init] and [set_context] have not both got past
    the validation of their arguments, each of [get_feature], [get_features],
    [get_property] and [get_properties] returns [None] and logs an error;
    nothing is raised, the object is as before and no call is made on the
    handler.  The first part is the test the reads make, on any state; the
    second ties the test to the calls made on a new object: [set_context]
    counts from the moment its ids are accepted, the check for a
    configuration file comes after. *)
Lemma reads_before_init_and_set_context :
  (forall st : State,
     ready (self st) = false ->
     (forall id, get_feature id st =
        Done (Ret None) (mkState (self st) (logged COLLECTION_INIT_ERROR (world st)))) /\
     get_features st =
        Done (Ret None) (mkState (self st) (logged COLLECTION_INIT_ERROR (world st))) /\
     (forall id, get_property id st =
        Done (Ret None) (mkState (self st) (logged COLLECTION_INIT_ERROR (world st)))) /\
     get_properties st =
        Done (Ret None) (mkState (self st) (logged COLLECTION_INIT_ERROR (world st)))) /\
  (forall (ops : list Op) (w : World),
     init_completed (lifecycle ops) = false \/
     context_attempted (lifecycle ops) = false ->
     ready (self (exec_all ops (mkState AppConfiguration.new w))) = false).
Proof.
  split; [exact reads_before_flags|].
  intros ops w H.
  destruct (exec_all_agrees ops _ (mkState AppConfiguration.new w) new_agrees)
    as (Hi & Ha & _).
  unfold ready. rewrite Hi, Ha.
  destruct H as [H | H]; unfold AppConfiguration.lifecycle in H; rewrite H;
    [reflexivity | apply andb_false_r].
Qed.

(** ** [fetch_configurations]

    C8, as the code has it.  On a session reached by calls that each ran to
    its end: after [init] and [set_context] have both completed,
    [fetch_configurations] makes exactly one [load_data] call on the handler,
    logs nothing and leaves the object as it was; when [init] has not
    completed, or no [set_context] with valid ids was made since, it logs an
    error and changes nothing else.  And on any session, while a load is in
    flight (the loading flag is set) it returns at once: no call, no log. *)
Theorem fetch_configurations_by_lifecycle (ops : list Op) (w : World) :
  let st := exec_all ops (mkState AppConfiguration.new w) in
  let lc := lifecycle ops in
  (init_completed lc = true -> context_completed lc = true ->
   complete (fetch_configurations st) =
     (Ret tt,
      mkState (self st)
              (mkWorld Feature.t CH (log (world st))
                       (calls (world st) ++ [CallLoadData])
                       (h_load_data (hstate (world st)))))) /\
  (init_completed lc = false \/ context_attempted lc = false ->
   fetch_configurations st =
     Done (Ret tt) (mkState (self st) (logged COLLECTION_INIT_ERROR (world st)))) /\
  (forall st' : State,
     ready (self st') = true -> is_loading (self st') = true ->
     fetch_configurations st' = Done (Ret tt) st').
Proof.
  intros st lc.
  pose proof (exec_all_agrees ops _ (mkState AppConfiguration.new w) new_agrees) as H.
  fold st in H. change (fold_left advance ops _) with lc in H.
  destruct H as (Hi & Ha & Hl & Hh & Hc).
  repeat split.
  - intros Hli Hlc. destruct (Hc Hlc) as [Hla _].
    rewrite Hli in Hi. rewrite Hla in Ha. specialize (Hh Hi).
    destruct st as [[a r h g i c l] w']. cbn in *. subst.
    reflexivity.
  - intros Hor. unfold fetch_configurations. cbn.
    assert (is_initialized (self st) && is_initialized_configuration (self st) = false) as ->.
    { rewrite Hi, Ha. destruct Hor as [-> | ->]; [reflexivity | apply andb_false_r]. }
    reflexivity.
  - intros st' Hr Hld. unfold ready in Hr.
    unfold fetch_configurations, load_data_now. cbn. rewrite Hr. cbn. rewrite Hld.
    reflexivity.
Qed.


Local Abbreviation step := (AppConfiguration.step validate_string override_server_host).
Local Abbreviation run_events := (AppConfiguration.run_events validate_string override_server_host).
Local Abbreviation calm := (AppConfiguration.calm validate_string override_server_host).
Local Abbreviation call := (AppConfiguration.call validate_string override_server_host).

(** A load request that finds the loading flag set ends without a load. *)
Lemma set_context_while_loading (c e f l : PyVal) (st : State) :
  is_loading (self st) = true ->
  exists r st',
    set_context c e f l st = Done r st' /\
    is_loading (self st') = true /\
    (calls (world st') = calls (world st) \/
     calls (world st') = calls (world st) ++ [CallSetContext c e f l]).
Proof.
  destruct st as [[a r h g i cf ld] w]. cbn. intros ->.
  unfold AppConfiguration.set_context. cbn.
  destruct i; cbn; [|eexists _, _; split; [reflexivity|cbn; tauto]].
  destruct (validate_string c); cbn; [|eexists _, _; split; [reflexivity|cbn; tauto]].
  destruct (validate_string e); cbn; [|eexists _, _; split; [reflexivity|cbn; tauto]].
  destruct (negb (truthy l) && is_none f); cbn;
    [eexists _, _; split; [reflexivity|cbn; tauto]|].
  unfold on_handler. cbn.
  destruct h; cbn; eexists _, _; (split; [reflexivity|cbn; tauto]).
Qed.

Lemma fetch_configurations_while_loading (st : State) :
  is_loading (self st) = true ->
  exists st',
    fetch_configurations st = Done (Ret tt) st' /\
    is_loading (self st') = true /\
    calls (world st') = calls (world st).
Proof.
  destruct st as [[a r h g i cf ld] w]. cbn. intros ->.
  unfold fetch_configurations. cbn.
  destruct (i && cf); cbn; eexists; (split; [reflexivity|cbn; tauto]).
Qed.

(** An event that is not an accepted [init] during a load keeps the system
    orderly. *)
Lemma step_orderly (sys : System) (ev : Event) :
  orderly sys ->
  calm [ev] sys = true ->
  orderly (step sys ev).
Proof.
  destruct sys as [[[a r h g i cf ld] w] pool].
  unfold orderly. cbn [shared in_flight self is_initialized is_loading
    configuration_handler_instance]. intros (Hh & Hlen & Hk) Hcalm.
  destruct ev as [op | n].
  - destruct op; cbn [AppConfiguration.step AppConfiguration.call shared in_flight].
    + (* init *)
      cbn in Hcalm. rewrite andb_true_r in Hcalm.
      unfold AppConfiguration.init, init_accepts in *.
      destruct (validate_string region0); cbn in *; [|tauto].
      destruct (validate_string apikey0); cbn in *; [|tauto].
      destruct (validate_string guid0); cbn in *; [|tauto].
      destruct pool; [|discriminate]. cbn. repeat split; auto.
    + unfold AppConfiguration.set_context. cbn.
      destruct i; cbn; [|tauto].
      destruct (validate_string collection_id); cbn; [|tauto].
      destruct (validate_string environment_id); cbn; [|tauto].
      destruct (negb (truthy live_config_update_enabled) && is_none configuration_file);
        cbn; [tauto|].
      unfold on_handler, load_data_now. cbn. rewrite (Hh eq_refl). cbn.
      destruct ld; cbn; [tauto|].
      destruct pool; [|discriminate]. cbn.
      repeat split; auto.
    + unfold fetch_configurations, load_data_now, handler_load_data. cbn.
      destruct i; cbn; [|tauto]. destruct cf; cbn; [|tauto].
      destruct ld; cbn; [tauto|]. rewrite (Hh eq_refl). cbn.
      destruct pool; [|discriminate]. cbn.
      repeat split; auto.
    + unfold register_configuration_update_listener, on_handler. cbn.
      destruct (i && cf); cbn; [|tauto]. destruct h; cbn; tauto.
    + unfold void, get_feature, ask_handler. cbn.
      destruct (i && cf); cbn; [|tauto]. destruct h; cbn; tauto.
    + unfold void, get_features, ask_handler. cbn.
      destruct (i && cf); cbn; [|tauto]. destruct h; cbn; tauto.
    + unfold void, get_properties, ask_handler. cbn.
      destruct (i && cf); cbn; [|tauto]. destruct h; cbn; tauto.
    + unfold void, get_property, ask_handler. cbn.
      destruct (i && cf); cbn; [|tauto]. destruct h; cbn; tauto.
    + cbn. tauto.
    + cbn. tauto.
    + cbn. tauto.
  - cbn [AppConfiguration.step shared in_flight].
    destruct (nth_error pool n) as [k|] eqn:En; [|cbn; tauto].
    destruct ld.
    + destruct pool as [|k0 [|k1 pool]]; try discriminate.
      destruct n as [|n]; [|destruct n; discriminate].
      cbn in En. injection En as <-.
      inversion Hk as [|? ? Hk0 _]; subst.
      rewrite Hk0. cbn. repeat split; auto.
    + destruct pool; [|discriminate]. destruct n; discriminate.
Qed.

Lemma run_events_orderly (evs : list Event) (sys : System) :
  orderly sys ->
  calm evs sys = true ->
  orderly (run_events evs sys).
Proof.
  revert sys. induction evs as [|ev evs IH]; intros sys Ho Hc; [exact Ho|].
  cbn [AppConfiguration.run_events fold_left].
  cbn [AppConfiguration.calm] in Hc. apply andb_true_iff in Hc as [Hev Hrest].
  apply IH; [|exact Hrest].
  apply step_orderly; [exact Ho|]. cbn [AppConfiguration.calm].
  rewrite Hev. reflexivity.
Qed.



Local Abbreviation class_step := (AppConfiguration.class_step validate_string override_server_host).
Local Abbreviation class_run := (AppConfiguration.class_run validate_string override_server_host).
Local Abbreviation Process := (@AppConfiguration.Process CH).

(** ** The singleton *)

Lemma list_set_length {A : Type} (i : nat) (x : A) (l : list A) :
  length (list_set i x l) = length l.
Proof.
  revert i. induction l as [|y l IH]; intros [|i]; cbn; auto.
Qed.

(** No operation of the class changes [__instance] once it is set, and none
    but the first construction adds an object. *)
Lemma class_step_instance (p : Process) (c : ClassOp) (a : nat) :
  instance p = Some a ->
  instance (class_step p c) = Some a /\
  length (heap (class_step p c)) = length (heap p).
Proof.
  intros Hi. destruct c as [| |b op]; cbn.
  - unfold get_instance. rewrite Hi. cbn. auto.
  - unfold construct. rewrite Hi. cbn. auto.
  - unfold invoke. destruct (nth_error (heap p) b); cbn; auto.
    split; [exact Hi | apply list_set_length].
Qed.

Lemma class_run_instance (cs : list ClassOp) (p : Process) (a : nat) :
  instance p = Some a ->
  instance (class_run cs p) = Some a /\
  length (heap (class_run cs p)) = length (heap p).
Proof.
  revert p. induction cs as [|c cs IH]; intros p Hi; [cbn; auto|].
  change (AppConfiguration.class_run validate_string override_server_host (c :: cs) p)
    with (class_run cs (class_step p c)).
  destruct (class_step_instance p c a Hi) as [Hi' Hlen].
  destruct (IH _ Hi') as [Hi'' Hlen'']. split; [exact Hi''|].
  rewrite Hlen''. exact Hlen.
Qed.

Lemma get_instance_sets (p : Process) :
  exists a, fst (get_instance p) = Ret a /\ instance (snd (get_instance p)) = Some a.
Proof.
  unfold get_instance, construct. destruct (instance p) as [a|] eqn:Hi; cbn.
  - exists a. auto.
  - eexists; split; reflexivity.
Qed.

Lemma class_run_one_object (cs : list ClassOp) (p : Process) :
  instance p = None -> heap p = [] ->
  length (heap (class_run cs p)) <= 1.
Proof.
  revert p. induction cs as [|c cs IH]; intros p Hi Hh.
  - cbn. rewrite Hh. cbn. lia.
  - change (AppConfiguration.class_run validate_string override_server_host (c :: cs) p)
      with (class_run cs (class_step p c)).
    assert (forall q : Process,
              q = mkProcess (Some 0) [AppConfiguration.new] (pworld p) ->
              length (heap (class_run cs q)) <= 1) as Hfirst.
    { intros q ->.
      destruct (class_run_instance cs
                  (mkProcess (Some 0) [AppConfiguration.new] (pworld p)) 0 eq_refl)
        as [_ Hlen].
      rewrite Hlen. cbn. lia. }
    destruct c as [| |b op].
    + apply Hfirst. cbn. unfold get_instance, construct. rewrite Hi, Hh. reflexivity.
    + apply Hfirst. cbn. unfold construct. rewrite Hi, Hh. reflexivity.
    + assert (class_step p (Invoke b op) = p) as ->.
      { cbn. unfold invoke. rewrite Hh. destruct b; reflexivity. }
      apply IH; assumption.
Qed.

(** From a process without an instance, the class holds either nothing, or
    one object, at address 0, which is [__instance]. *)
Lemma class_step_live (p : Process) (c : ClassOp) :
  (instance p = None /\ heap p = []) \/
  (exists obj, instance p = Some 0 /\ heap p = [obj]) ->
  (instance (class_step p c) = None /\ heap (class_step p c) = []) \/
  (exists obj, instance (class_step p c) = Some 0 /\ heap (class_step p c) = [obj]).
Proof.
  destruct p as [inst hp pw]. cbn [instance heap].
  intros [[-> ->] | (obj & -> & ->)].
  - destruct c as [| |b op]; cbn.
    + right. eexists; split; reflexivity.
    + right. eexists; split; reflexivity.
    + left. unfold invoke. destruct b; cbn; auto.
  - destruct c as [| |b op]; cbn.
    + right. exists obj. auto.
    + right. exists obj. auto.
    + right. unfold invoke. destruct b as [|b]; cbn.
      * eexists. split; reflexivity.
      * destruct b; cbn; exists obj; auto.
Qed.

Lemma class_run_live (cs : list ClassOp) (p : Process) :
  (instance p = None /\ heap p = []) \/
  (exists obj, instance p = Some 0 /\ heap p = [obj]) ->
  (instance (class_run cs p) = None /\ heap (class_run cs p) = []) \/
  (exists obj, instance (class_run cs p) = Some 0 /\ heap (class_run cs p) = [obj]).
Proof.
  revert p. induction cs as [|c cs IH]; intros p H; [exact H|].
  change (AppConfiguration.class_run validate_string override_server_host (c :: cs) p)
    with (class_run cs (class_step p c)).
  apply IH. apply class_step_live. exact H.
Qed.

(** C10: a call of [get_instance] returns an object and leaves it in
    [__instance]; any later call, whatever is done with the class and its
    objects in between, returns the same object, finds it still in
    [__instance] and changes nothing.  The first call on a class without an
    instance constructs the object, with the attributes [__init__] gives it.
    A process that starts without an instance never holds more than one
    object of the class, its [__instance] is that object when it has one,
    and the object [get_instance] returns is there.  The constructor, called
    while an instance exists, raises and leaves the process as it was. *)
Theorem get_instance_singleton :
  (forall (p : Process) (cs : list ClassOp),
     exists a,
       fst (get_instance p) = Ret a /\
       instance (snd (get_instance p)) = Some a /\
       fst (get_instance (class_run cs (snd (get_instance p)))) = Ret a /\
       instance (class_run cs (snd (get_instance p))) = Some a /\
       snd (get_instance (class_run cs (snd (get_instance p)))) =
         class_run cs (snd (get_instance p))) /\
  (forall p : Process,
     instance p = None ->
     get_instance p =
       (Ret (length (heap p)),
        mkProcess (Some (length (heap p))) (heap p ++ [AppConfiguration.new]) (pworld p)) /\
     nth_error (heap (snd (get_instance p))) (length (heap p)) =
       Some AppConfiguration.new) /\
  (forall (cs : list ClassOp) (w : World),
     length (heap (class_run cs (mkProcess None [] w))) <= 1) /\
  (forall (cs : list ClassOp) (w : World),
     let p := class_run cs (mkProcess None [] w) in
     (instance p = None -> heap p = []) /\
     (forall a, instance p = Some a ->
                exists obj, nth_error (heap p) a = Some obj /\ heap p = [obj])) /\
  (forall (cs : list ClassOp) (w : World),
     let p := class_run cs (mkProcess None [] w) in
     exists a obj,
       fst (get_instance p) = Ret a /\
       instance (snd (get_instance p)) = Some a /\
       nth_error (heap (snd (get_instance p))) a = Some obj /\
       heap (snd (get_instance p)) = [obj]) /\
  (forall (p : Process) (a : nat),
     instance p = Some a -> construct p = (Raise SingletonException, p)).
Proof.
  assert (forall (cs : list ClassOp) (w : World),
            (instance (class_run cs (mkProcess None [] w)) = None /\
             heap (class_run cs (mkProcess None [] w)) = []) \/
            (exists obj, instance (class_run cs (mkProcess None [] w)) = Some 0 /\
                         heap (class_run cs (mkProcess None [] w)) = [obj])) as Hlive.
  { intros cs w. apply class_run_live. left. split; reflexivity. }
  repeat apply conj.
  - intros p cs. destruct (get_instance_sets p) as (a & Hr & Hi).
    exists a. split; [exact Hr|]. split; [exact Hi|].
    destruct (class_run_instance cs _ a Hi) as [Hi' _].
    assert (forall (q : Process) (b : nat),
              instance q = Some b -> get_instance q = (Ret b, q)) as Hget
      by (intros q b Hq; unfold get_instance; rewrite Hq; reflexivity).
    rewrite (Hget _ _ Hi'). cbn. auto.
  - intros p Hi. unfold get_instance, construct. rewrite Hi. cbn.
    split; [reflexivity|]. rewrite nth_error_app2, Nat.sub_diag; [reflexivity | lia].
  - intros cs w. apply class_run_one_object; reflexivity.
  - intros cs w p. destruct (Hlive cs w) as [[Hi Hh] | (obj & Hi & Hh)]; fold p in Hi, Hh.
    + split; [intros _; exact Hh|]. intros a Ha. congruence.
    + split; [intros Hn; congruence|]. intros a Ha.
      assert (a = 0) as -> by congruence.
      exists obj. rewrite Hh. auto.
  - intros cs w p. destruct (Hlive cs w) as [[Hi Hh] | (obj & Hi & Hh)]; fold p in Hi, Hh.
    + exists 0, AppConfiguration.new. unfold get_instance, construct.
      rewrite Hi, Hh. cbn. auto.
    + exists 0, obj. unfold get_instance. rewrite Hi. cbn. rewrite Hh. auto.
  - intros p a Hi. unfold construct. rewrite Hi. reflexivity.
Qed.

End Facade.

Section RefusedSetContext.
Context {CH : ConfigurationHandler Feature.t}.
Variable validate_string : PyVal -> bool.

Import AppConfiguration.

(** C2 fails on the session it is about.  On an initialized session, with ids
    that pass validation, [set_context] with
    [live_config_update_enabled=False] and [configuration_file=None] does log
    CONFIGURATION_FILE_NOT_FOUND_ERROR and return without a call on the
    handler: no update source is bound, no snapshot is loaded.  But line 153
    has set the context flag before line 154 misses the file, so the session
    is ready, and each of the four reads that follow is handed to the
    handler: it logs nothing and returns what the handler returns, not the
    [None] of the facade. *)
Theorem reads_after_set_context_without_file
        (collection_id environment_id : PyVal) (st : @AppConfiguration.State CH) :
  is_initialized (self st) = true ->
  configuration_handler_instance (self st) = true ->
  ids_accepted validate_string collection_id environment_id = true ->
  exists st',
    AppConfiguration.set_context validate_string
      collection_id environment_id PNone (PBool false) st = Done (Ret tt) st' /\
    world st' =
      mkWorld Feature.t CH
        (log (world st) ++ [LogError CONFIGURATION_FILE_NOT_FOUND_ERROR])
        (calls (world st)) (hstate (world st)) /\
    ready (self st') = true /\
    (forall id,
       get_feature id st' =
         Done (Ret (h_get_feature id (hstate (world st))))
              (mkState (self st')
                 (mkWorld Feature.t CH (log (world st'))
                    (calls (world st') ++ [CallGetFeature id]) (hstate (world st'))))) /\
    get_features st' =
      Done (Ret (h_get_features (hstate (world st))))
           (mkState (self st')
              (mkWorld Feature.t CH (log (world st'))
                 (calls (world st') ++ [CallGetFeatures]) (hstate (world st')))) /\
    (forall id,
       get_property id st' =
         Done (Ret (h_get_property id (hstate (world st))))
              (mkState (self st')
                 (mkWorld Feature.t CH (log (world st'))
                    (calls (world st') ++ [CallGetProperty id]) (hstate (world st'))))) /\
    get_properties st' =
      Done (Ret (h_get_properties (hstate (world st))))
           (mkState (self st')
              (mkWorld Feature.t CH (log (world st'))
                 (calls (world st') ++ [CallGetProperties]) (hstate (world st')))).
Proof.
  destruct st as [[a r h g i c l] w].
  cbn [self is_initialized configuration_handler_instance].
  intros -> -> Hids. unfold ids_accepted in Hids.
  apply andb_true_iff in Hids as [Hc He].
  unfold AppConfiguration.set_context. cbn. rewrite Hc, He. cbn.
  eexists. split; [reflexivity|]. cbn. repeat split.
Qed.

End RefusedSetContext.

(** ** Examples on the handler model *)

Import AppConfiguration.

Lemma init_invalid_argument_witness :
  exists m,
    AppConfiguration.init Models.validate_string PNone
      PNone (PStr "guid_value") (PStr "apikey_value") Models.session0 =
    Done (Ret tt)
         (mkState AppConfiguration.new
                  (mkWorld Feature.t Models.handler [LogError m] [] Models.empty_cache)).
Proof.
  apply (init_invalid_argument (CH := Models.handler) Models.validate_string PNone
           PNone (PStr "guid_value") (PStr "apikey_value") Models.session0).
  left. reflexivity.
Defined.

Lemma reads_after_set_context_without_file_witness :
  exists st',
    AppConfiguration.set_context Models.validate_string
      (PStr "collectionId") (PStr "environmentId") PNone (PBool false)
      Examples.initialized_session = Done (Ret tt) st' /\
    log (world st') = [LogError CONFIGURATION_FILE_NOT_FOUND_ERROR] /\
    calls (world st') =
      [CallInit (PStr "apikey_value") (PStr "guid_value") (PStr "us-south") PNone] /\
    fst (complete (get_features st')) = Ret (Some []) /\
    fst (complete (get_features st')) <> Ret None /\
    fst (complete (get_properties st')) = Ret (Some []) /\
    log (world (snd (complete (get_features st')))) =
      [LogError CONFIGURATION_FILE_NOT_FOUND_ERROR].
Proof.
  destruct (reads_after_set_context_without_file (CH := Models.handler)
              Models.validate_string (PStr "collectionId") (PStr "environmentId")
              Examples.initialized_session eq_refl eq_refl eq_refl)
    as (st' & Hrun & Hworld & _ & _ & Hfeatures & _ & Hproperties).
  exists st'. split; [exact Hrun|].
  rewrite Hfeatures, Hproperties. cbn [complete fst snd world log].
  rewrite Hworld. cbn.
  repeat split. discriminate.
Defined.

(** On a session that has loaded a snapshot, the reads after a [set_context]
    without a source still return the snapshot. *)
Lemma set_context_without_file_keeps_snapshot :
  let st := exec_all Models.validate_string PNone
              [Models.init_us_south; Models.context_from_file;
               Models.context_without_file] Models.session0 in
  log (world st) = [LogError CONFIGURATION_FILE_NOT_FOUND_ERROR] /\
  fst (complete (get_feature (PStr "f1") st)) = Ret (Some Models.f1) /\
  fst (complete (get_feature (PStr "f1") st)) <> Ret None.
Proof.
  cbv zeta. split; [reflexivity|]. split; [reflexivity|].
  intros H. vm_compute in H. discriminate.
Qed.

(** C4 fails on a session whose only [set_context] was refused for want of a
    configuration file: [set_context] has not completed, it bound no update
    source and loaded nothing, but line 153 had set the context flag before
    line 154 missed the file; so [get_features] logs no error and returns
    what the handler holds, an empty mapping here and not [None], and
    [get_feature] asks the handler too. *)
Theorem reads_after_refused_set_context :
  let ops := [Models.init_us_south; Models.context_without_file] in
  let st := exec_all Models.validate_string PNone ops Models.session0 in
  context_completed (lifecycle Models.validate_string ops) = false /\
  log (world st) = [LogError CONFIGURATION_FILE_NOT_FOUND_ERROR] /\
  complete (get_features st) =
    (Ret (Some []),
     mkState (self st)
             (mkWorld Feature.t Models.handler (log (world st))
                      (calls (world st) ++ [CallGetFeatures]) (hstate (world st)))) /\
  complete (get_feature (PStr "f1") st) =
    (Ret None,
     mkState (self st)
             (mkWorld Feature.t Models.handler (log (world st))
                      (calls (world st) ++ [CallGetFeature (PStr "f1")])
                      (hstate (world st)))).
Proof.
  cbv zeta. repeat split.
Qed.

(** On the same session [fetch_configurations] calls [load_data] on a handler
    whose [set_context] was never called. *)
Lemma fetch_configurations_after_refused_set_context :
  let ops := [Models.init_us_south; Models.context_without_file] in
  let st := exec_all Models.validate_string PNone ops Models.session0 in
  context_completed (lifecycle Models.validate_string ops) = false /\
  calls (world (snd (complete (fetch_configurations st)))) =
    [CallInit (PStr "apikey_value") (PStr "guid_value") (PStr "us-south") PNone;
     CallLoadData] /\
  log (world (snd (complete (fetch_configurations st)))) = log (world st).
Proof.
  cbv zeta. repeat split.
Qed.

Lemma fetch_configurations_by_lifecycle_witness :
  let st := exec_all Models.validate_string PNone
              [Models.init_us_south; Models.context_from_file] Models.session0 in
  complete (fetch_configurations st) =
    (Ret tt,
     mkState (self st)
             (mkWorld Feature.t Models.handler (log (world st))
                      (calls (world st) ++ [CallLoadData])
                      (h_load_data (hstate (world st))))).
Proof.
  apply (fetch_configurations_by_lifecycle (CH := Models.handler)
           Models.validate_string PNone
           [Models.init_us_south; Models.context_from_file] Models.world0);
    reflexivity.
Defined.

(** C8 as stated fails: [init] and [set_context] have completed, and a
    [fetch_configurations] that enters while a load is in flight makes no
    [load_data] call and logs nothing. *)
Lemma fetch_configurations_during_load :
  let ops := [Models.init_us_south; Models.context_live] in
  let sys := run_events Models.validate_string PNone
               [Enter Models.init_us_south; Enter Models.context_live;
                LoadReturns 0; Enter OpFetchConfigurations]
               (mkSystem Models.session0 []) in
  init_completed (lifecycle Models.validate_string ops) = true /\
  context_completed (lifecycle Models.validate_string ops) = true /\
  length (in_flight sys) = 1 /\
  fetch_configurations (shared sys) = Done (Ret tt) (shared sys).
Proof.
  cbv zeta. repeat split.
Qed.



Lemma get_instance_singleton_witness :
  get_instance (mkProcess None [] Models.world0) = (Ret 0, Models.process1) /\
  nth_error (heap (snd (get_instance (mkProcess None [] Models.world0)))) 0 =
    Some AppConfiguration.new /\
  construct Models.process1 = (Raise SingletonException, Models.process1).
Proof.
  destruct (get_instance_singleton (CH := Models.handler) Models.validate_string PNone)
    as (_ & Hfirst & _ & _ & _ & Hagain).
  destruct (Hfirst (mkProcess None [] Models.world0) eq_refl) as [Hget Hobj].
  split; [exact Hget|]. split; [exact Hobj|].
  apply (Hagain Models.process1 0). reflexivity.
Defined.

(* ===================================================================== *)
(** * Properties of the API manager *)
(* ===================================================================== *)

Section APIManagerFacts.
Variable json_dumps : PyVal -> result string.
Variable send_request : APIManager.Request -> result APIManager.DetailedResponse.
Variable str_exc : PyExc -> string.
Variables SDK_NAME version : string.

Import APIManager.

Local Abbreviation encode := (APIManager.encode json_dumps SDK_NAME version).
Local Abbreviation prepare_api_request :=
  (APIManager.prepare_api_request json_dumps send_request str_exc SDK_NAME version).

(** The headers of a request with a JSON body. *)
Local Abbreviation json_headers :=
  [("Content-Type", "application/json"%string);
   ("User-Agent", (SDK_NAME ++ "/" ++ version)%string)].

Lemma is_none_false (v : PyVal) : is_none v = false <-> v <> PNone.
Proof. destruct v; cbn; split; intros; congruence. Qed.

(** [__remove_null_values] keeps exactly the items whose value is not
    [None]. *)
Lemma remove_null_values_items (d : list (string * PyVal)) :
  exists d',
    remove_null_values (PDict d) = PDict d' /\
    forall k v, In (k, v) d' <-> In (k, v) d /\ v <> PNone.
Proof.
  eexists. split; [reflexivity|]. intros k v.
  rewrite filter_In. cbn. rewrite negb_true_iff, is_none_false. reflexivity.
Qed.

(** What [encode] hands over, by the kind of payload. *)
Lemma encode_passes_on (data : PyVal) :
  truthy data && is_dict data = false -> encode data = Ret ([], data).
Proof. unfold APIManager.encode. intros ->. reflexivity. Qed.

Lemma encode_serializes (data : PyVal) (s : string) :
  truthy data && is_dict data = true ->
  json_dumps (remove_null_values data) = Ret s ->
  encode data = Ret (json_headers, PStr s).
Proof. unfold APIManager.encode. intros -> ->. reflexivity. Qed.

Lemma encode_raises (data : PyVal) (e : PyExc) :
  truthy data && is_dict data = true ->
  json_dumps (remove_null_values data) = Raise e ->
  encode data = Raise e.
Proof. unfold APIManager.encode. intros -> ->. reflexivity. Qed.

(** C7, as the code has it: when the payload is not a non-empty dictionary, or
    [json.dumps] serializes it, [prepare_api_request] returns a response and
    raises nothing: the response of the service when there is one; after an
    [ApiException], a [DetailedResponse] with the exception's code as
    [status_code] and [None] as response and headers, nothing being logged;
    after any other exception, a [DetailedResponse] with [status_code] 400
    and one debug entry in the log. *)
Theorem prepare_api_request_contains_errors (method url data : PyVal) (n : Net) :
  truthy data && is_dict data = false \/
  (exists s, json_dumps (remove_null_values data) = Ret s) ->
  exists headers body,
    encode data = Ret (headers, body) /\
    let request := mkRequest method url headers body in
    let sent := mkNet (net_log n) (requests n ++ [request]) in
    (exists r n', prepare_api_request method url data n = (Ret r, n')) /\
    (forall r,
       send_request request = Ret r ->
       prepare_api_request method url data n = (Ret r, sent)) /\
    (forall code,
       send_request request = Raise (ApiException code) ->
       prepare_api_request method url data n =
         (Ret (mkDetailedResponse PNone PNone (PInt code)), sent)) /\
    (forall e,
       send_request request = Raise e ->
       (forall code, e <> ApiException code) ->
       prepare_api_request method url data n =
         (Ret (mkDetailedResponse PNone PNone (PInt 400)),
          mkNet (net_log n ++
                   [LogDebug (Text ("Error in service API call " ++ str_exc e)%string)])
                (requests n ++ [request]))).
Proof.
  intros H.
  assert (exists headers body, encode data = Ret (headers, body)) as (headers & body & He).
  { destruct (truthy data && is_dict data) eqn:E.
    - destruct H as [H | [s H]]; [discriminate|].
      eexists _, _. apply encode_serializes; eassumption.
    - eexists _, _. apply encode_passes_on; assumption. }
  exists headers, body. split; [exact He|].
  cbv zeta. unfold APIManager.prepare_api_request. rewrite He.
  destruct (send_request (mkRequest method url headers body)) as [r | e] eqn:Es.
  - split; [eauto|]. repeat split; intros; congruence.
  - assert (forall e', Raise (A := DetailedResponse) e = Raise e' -> e = e') as Hinj
      by (intros e' [= ->]; reflexivity).
    destruct e; (split; [eauto|]); (split; [intros; congruence|]); split;
      try (intros code' Hc; apply Hinj in Hc; discriminate Hc);
      try (intros e' He' _; apply Hinj in He'; subst e'; reflexivity).
    + intros code' Hc. apply Hinj in Hc. injection Hc as ->. reflexivity.
    + intros e' He' Hne. apply Hinj in He'. subst e'. exfalso. apply (Hne code). reflexivity.
Qed.

(** C9, as the code has it: a non-empty dictionary that [json.dumps] can
    serialize once its [None] values are removed is sent as that
    serialization, with the Content-Type application/json and the User-Agent
    of the SDK as headers; the dictionary serialized holds exactly the items
    of the payload whose value is not [None]; a string is sent as it is, with
    no header. *)
Theorem prepare_api_request_sends (method url : PyVal) (n : Net) :
  (forall d s,
     d <> [] ->
     json_dumps (remove_null_values (PDict d)) = Ret s ->
     requests (snd (prepare_api_request method url (PDict d) n)) =
       requests n ++ [mkRequest method url json_headers (PStr s)]) /\
  (forall d,
     exists d',
       remove_null_values (PDict d) = PDict d' /\
       forall k v, In (k, v) d' <-> In (k, v) d /\ v <> PNone) /\
  (forall s,
     requests (snd (prepare_api_request method url (PStr s) n)) =
       requests n ++ [mkRequest method url [] (PStr s)]).
Proof.
  split; [|split].
  - intros d s Hd Hs. unfold APIManager.prepare_api_request.
    rewrite (encode_serializes (PDict d) s); [|destruct d; [congruence|reflexivity]|exact Hs].
    destruct (send_request _) as [r | e]; [reflexivity|]. destruct e; reflexivity.
  - apply remove_null_values_items.
  - intros s. unfold APIManager.prepare_api_request.
    rewrite (encode_passes_on (PStr s)); [|apply andb_false_r].
    destruct (send_request _) as [r | e]; [reflexivity|]. destruct e; reflexivity.
Qed.

End APIManagerFacts.

(** ** Examples with [json.dumps] and the example transport *)

Lemma prepare_api_request_contains_errors_witness :
  exists r n',
    APIManager.prepare_api_request Models.json_dumps Models.send_request Models.str_exc
      "appconfiguration-python-sdk" "0.1.0"
      (PStr "POST") (PStr "down")
      (PDict [("feature_id", PStr "f1"); ("count", PInt 3); ("segment", PNone)])
      Models.net0 = (Ret r, n').
Proof.
  destruct (prepare_api_request_contains_errors
              Models.json_dumps Models.send_request Models.str_exc
              "appconfiguration-python-sdk" "0.1.0"
              (PStr "POST") (PStr "down")
              (PDict [("feature_id", PStr "f1"); ("count", PInt 3); ("segment", PNone)])
              Models.net0) as (headers & body & _ & Hret & _).
  - right. eexists. reflexivity.
  - exact Hret.
Defined.

(** C7 as stated fails: [json.dumps] runs before the [try], and the
    [TypeError] it raises on a dictionary that holds an object it cannot
    serialize reaches the caller; no request is made. *)
Lemma prepare_api_request_raises :
  APIManager.prepare_api_request Models.json_dumps Models.send_request Models.str_exc
    "appconfiguration-python-sdk" "0.1.0"
    (PStr "POST") (PStr "https://service/events") (PDict [("listener", PObject 1)])
    Models.net0 = (Raise TypeError, Models.net0).
Proof. reflexivity. Qed.

Lemma prepare_api_request_sends_witness :
  exists s,
    Models.json_dumps
      (APIManager.remove_null_values
         (PDict [("feature_id", PStr "f1"); ("count", PInt 3); ("segment", PNone)])) =
      Ret s /\
    APIManager.requests
      (snd (APIManager.prepare_api_request
              Models.json_dumps Models.send_request Models.str_exc
              "appconfiguration-python-sdk" "0.1.0"
              (PStr "POST") (PStr "https://service/events")
              (PDict [("feature_id", PStr "f1"); ("count", PInt 3); ("segment", PNone)])
              Models.net0)) =
      [APIManager.mkRequest (PStr "POST") (PStr "https://service/events")
         [("Content-Type", "application/json"%string);
          ("User-Agent", "appconfiguration-python-sdk/0.1.0"%string)]
         (PStr s)].
Proof.
  eexists. split; [reflexivity|].
  apply (prepare_api_request_sends
           Models.json_dumps Models.send_request Models.str_exc
           "appconfiguration-python-sdk" "0.1.0"
           (PStr "POST") (PStr "https://service/events") Models.net0).
  - discriminate.
  - reflexivity.
Defined.

(** C9 as stated fails: the empty dictionary is falsy, so it is handed over
    as it is, a dictionary and not its serialization, and without the
    Content-Type header. *)
Lemma prepare_api_request_empty_dict :
  Models.json_dumps (APIManager.remove_null_values (PDict [])) = Ret "{}"%string /\
  APIManager.requests
    (snd (APIManager.prepare_api_request
            Models.json_dumps Models.send_request Models.str_exc
            "appconfiguration-python-sdk" "0.1.0"
            (PStr "POST") (PStr "https://service/events") (PDict []) Models.net0)) =
    [APIManager.mkRequest (PStr "POST") (PStr "https://service/events") [] (PDict [])] /\
  ~ APIManager.requests
      (snd (APIManager.prepare_api_request
              Models.json_dumps Models.send_request Models.str_exc
              "appconfiguration-python-sdk" "0.1.0"
              (PStr "POST") (PStr "https://service/events") (PDict []) Models.net0)) =
    [APIManager.mkRequest (PStr "POST") (PStr "https://service/events")
       [("Content-Type", "application/json"%string);
        ("User-Agent", "appconfiguration-python-sdk/0.1.0"%string)]
       (PStr "{}")].
Proof.
  split; [reflexivity|]. split; [reflexivity|].
  intros H. vm_compute in H. discriminate.
Qed.

(* ===================================================================== *)
(** * More on the facade *)
(* ===================================================================== *)

Section FacadeMore.
Context {CH : ConfigurationHandler Feature.t}.
Variable validate_string : PyVal -> bool.
Variable override_server_host : PyVal.

Import AppConfiguration.

Local Abbreviation init := (AppConfiguration.init validate_string override_server_host).
Local Abbreviation set_context := (AppConfiguration.set_context validate_string).
Local Abbreviation State := (@AppConfiguration.State CH).
Local Abbreviation exec := (AppConfiguration.exec validate_string override_server_host).
Local Abbreviation exec_all := (AppConfiguration.exec_all validate_string override_server_host).
Local Abbreviation call := (AppConfiguration.call validate_string override_server_host).
Local Abbreviation lifecycle := (AppConfiguration.lifecycle validate_string).
Local Abbreviation advance := (AppConfiguration.advance validate_string).
Local Abbreviation init_accepts := (AppConfiguration.init_accepts validate_string).
Local Abbreviation ids_accepted := (AppConfiguration.ids_accepted validate_string).
Local Abbreviation logged m w :=
  (mkWorld Feature.t CH (log w ++ [LogError m]) (calls w) (hstate w)).

Ltac unfold_methods :=
  unfold AppConfiguration.exec, AppConfiguration.call, AppConfiguration.init,
    AppConfiguration.set_context, fetch_configurations,
    register_configuration_update_listener, void, get_feature, get_features,
    get_property, get_properties, get_region, get_guid, get_apikey,
    setup_configuration_handler, load_data_now, handler_load_data, on_handler,
    ask_handler in *.

Ltac split_tests :=
  cbn;
  repeat match goal with
         | |- context [validate_string ?x] => destruct (validate_string x) eqn:?; cbn
         | |- context [if ?b then _ else _] => destruct b eqn:?; cbn
         end.

(** X1: after an [init] whose arguments pass validation, [get_region],
    [get_guid] and [get_apikey] return those arguments and change nothing;
    the session is initialized, not loading, holds the handler, and its
    context flag is as before; nothing is logged and the one call made on the
    handler is [init(apikey, guid, region, override_server_host)]. *)
Theorem init_stores_credentials (region guid apikey : PyVal) (st : State) :
  init_accepts region guid apikey = true ->
  exists st',
    init region guid apikey st = Done (Ret tt) st' /\
    get_region st' = Done (Ret region) st' /\
    get_guid st' = Done (Ret guid) st' /\
    get_apikey st' = Done (Ret apikey) st' /\
    is_initialized (self st') = true /\
    is_loading (self st') = false /\
    configuration_handler_instance (self st') = true /\
    is_initialized_configuration (self st') = is_initialized_configuration (self st) /\
    log (world st') = log (world st) /\
    calls (world st') =
      calls (world st) ++ [CallInit apikey guid region override_server_host] /\
    hstate (world st') =
      h_init apikey guid region override_server_host (hstate (world st)).
Proof.
  intros H. eexists. split; [apply init_valid_arguments; exact H|].
  repeat split.
Qed.

(** What one call does to the stored credentials. *)
Lemma exec_stored (st : State) (op : Op) :
  Session.stored (self (exec st op)) =
    Session.remember validate_string (Session.stored (self st)) op.
Proof.
  destruct st as [[a r h g i c l] w].
  destruct op; unfold_methods; unfold Session.stored, Session.remember,
    AppConfiguration.init_accepts; split_tests; reflexivity.
Qed.

(** X8: no call of the facade clears the initialized flag, the context flag
    or the handler attribute once it is set, on any state; and no call but an
    [init] whose arguments pass validation changes the stored region, guid
    and apikey. *)
Theorem exec_keeps_flags (st : State) (op : Op) :
  (is_initialized (self st) = true -> is_initialized (self (exec st op)) = true) /\
  (is_initialized_configuration (self st) = true ->
   is_initialized_configuration (self (exec st op)) = true) /\
  (configuration_handler_instance (self st) = true ->
   configuration_handler_instance (self (exec st op)) = true) /\
  ((forall r g k, op = OpInit r g k -> init_accepts r g k = false) ->
   Session.stored (self (exec st op)) = Session.stored (self st)).
Proof.
  split; [|split; [|split]].
  - destruct st as [[a r h g i c l] w]. cbn [self is_initialized]. intros ->.
    destruct op; unfold_methods; split_tests; reflexivity.
  - destruct st as [[a r h g i c l] w]. cbn [self is_initialized_configuration]. intros ->.
    destruct op; unfold_methods; split_tests; reflexivity.
  - destruct st as [[a r h g i c l] w]. cbn [self configuration_handler_instance]. intros ->.
    destruct op; unfold_methods; split_tests; reflexivity.
  - intros H. rewrite exec_stored. destruct op; try reflexivity.
    cbn. rewrite (H _ _ _ eq_refl). reflexivity.
Qed.

Lemma exec_all_stored (ops : list Op) (st : State) :
  Session.stored (self (exec_all ops st)) =
    fold_left (Session.remember validate_string) ops (Session.stored (self st)).
Proof.
  revert st. induction ops as [|op ops IH]; intros st; [reflexivity|].
  cbn [AppConfiguration.exec_all fold_left].
  change (fold_left exec ops (exec st op)) with (exec_all ops (exec st op)).
  rewrite IH, exec_stored. reflexivity.
Qed.

(** X2: on a new object, after any sequence of calls, the three getters
    return the region, guid and apikey of the last [init] whose arguments
    passed validation, all three from the same call, and the empty strings
    when there was none: an [init] that fails validation stores nothing. *)
Theorem getters_return_last_valid_init (ops : list Op) (w : World) :
  let st := exec_all ops (mkState AppConfiguration.new w) in
  (fst (complete (get_region st)), fst (complete (get_guid st)),
   fst (complete (get_apikey st))) =
  (let '(r, g, k) := Session.credentials validate_string ops in (Ret r, Ret g, Ret k)).
Proof.
  intros st.
  pose proof (exec_all_stored ops (mkState AppConfiguration.new w)) as H.
  fold st in H. unfold Session.credentials.
  change (Session.stored (self (mkState AppConfiguration.new w)))
    with (PStr "", PStr "", PStr "") in H.
  rewrite <- H. reflexivity.
Qed.

(** X3: on an initialized session with no load running, [set_context] with
    valid ids and a source (live updates, or a file) sets the context flag,
    calls [set_context] on the handler with the four arguments as given and
    then [load_data], once each and in that order, logs nothing and leaves
    the loading flag cleared. *)
Theorem set_context_binds_and_loads
        (collection_id environment_id configuration_file
         live_config_update_enabled : PyVal) (st : State) :
  is_initialized (self st) = true ->
  configuration_handler_instance (self st) = true ->
  is_loading (self st) = false ->
  ids_accepted collection_id environment_id = true ->
  source_given configuration_file live_config_update_enabled = true ->
  complete (set_context collection_id environment_id configuration_file
                        live_config_update_enabled st) =
    (Ret tt,
     mkState (mk (apikey (self st)) (region (self st)) true (guid (self st))
                 true true false)
             (mkWorld Feature.t CH (log (world st))
                (calls (world st) ++
                   [CallSetContext collection_id environment_id configuration_file
                                   live_config_update_enabled;
                    CallLoadData])
                (h_load_data
                   (h_set_context collection_id environment_id configuration_file
                                  live_config_update_enabled (hstate (world st)))))).
Proof.
  destruct st as [[a r h g i c l] w]. cbn [self is_initialized is_loading
    configuration_handler_instance]. intros -> -> -> Hids Hsrc.
  unfold AppConfiguration.ids_accepted in Hids. apply andb_true_iff in Hids as [Hc He].
  unfold source_given in Hsrc. apply negb_true_iff in Hsrc.
  unfold_methods. cbn. rewrite Hc, He. cbn. rewrite Hsrc. cbn.
  rewrite <- app_assoc. reflexivity.
Qed.

(** X4: [set_context] checks, in this order, that the session is initialized,
    the collection id and the environment id; the first check that fails logs
    its own message, and the object, the context flag included, and the
    handler are left as they were, whatever the file and live-update
    arguments. *)
Theorem set_context_refusals
        (collection_id environment_id configuration_file
         live_config_update_enabled : PyVal) (st : State) :
  (is_initialized (self st) = false ->
   set_context collection_id environment_id configuration_file
               live_config_update_enabled st =
     Done (Ret tt) (mkState (self st) (logged COLLECTION_INIT_ERROR (world st)))) /\
  (is_initialized (self st) = true ->
   validate_string collection_id = false ->
   set_context collection_id environment_id configuration_file
               live_config_update_enabled st =
     Done (Ret tt) (mkState (self st) (logged COLLECTION_ID_VALUE_ERROR (world st)))) /\
  (is_initialized (self st) = true ->
   validate_string collection_id = true ->
   validate_string environment_id = false ->
   set_context collection_id environment_id configuration_file
               live_config_update_enabled st =
     Done (Ret tt) (mkState (self st) (logged ENVIRONMENT_ID_VALUE_ERROR (world st)))).
Proof.
  destruct st as [[a r h g i c l] w]. cbn [self is_initialized].
  unfold AppConfiguration.set_context. cbn.
  repeat split.
  - intros ->. reflexivity.
  - intros -> ->. reflexivity.
  - intros -> -> ->. reflexivity.
Qed.

(** X5: [register_configuration_update_listener] hands the listener to the
    handler, in one call and without logging, when both flags are set; before
    that it logs an error and the listener is dropped: no call is made on the
    handler. *)
Theorem register_listener_when_ready (listener : PyVal) (st : State) :
  (ready (self st) = true ->
   configuration_handler_instance (self st) = true ->
   register_configuration_update_listener listener st =
     Done (Ret tt)
          (mkState (self st)
                   (mkWorld Feature.t CH (log (world st))
                      (calls (world st) ++ [CallRegisterListener listener])
                      (h_register_configuration_update_listener listener
                         (hstate (world st)))))) /\
  (ready (self st) = false ->
   register_configuration_update_listener listener st =
     Done (Ret tt) (mkState (self st) (logged COLLECTION_INIT_ERROR (world st)))).
Proof.
  unfold ready, register_configuration_update_listener, on_handler. cbn.
  split.
  - intros -> Hh. cbn. rewrite Hh. reflexivity.
  - intros ->. reflexivity.
Qed.

Lemma call_returns (st : State) (op : Op) :
  (is_initialized (self st) = true -> configuration_handler_instance (self st) = true) ->
  fst (complete (call op st)) = Ret tt.
Proof.
  destruct st as [[a r h g i c l] w]. cbn [self is_initialized
    configuration_handler_instance]. intros Hh.
  assert (i = false \/ h = true) as Hcase
    by (destruct i; [right; apply Hh; reflexivity | left; reflexivity]).
  clear Hh. destruct c, l, Hcase; subst;
    destruct op; unfold_methods; split_tests; reflexivity.
Qed.

(** X6: on a new object, after any sequence of calls that each returned,
    the handler attribute holds the handler whenever the initialized flag is
    set, so that no method of the facade calls a method on [None]: the
    [AttributeError] of such a call does not arise.  (What a validator or the
    handler may raise inside its own code is not part of this statement.) *)
Theorem handler_present_when_called (ops : list Op) (w : World) :
  let st := exec_all ops (mkState AppConfiguration.new w) in
  (is_initialized (self st) = true -> configuration_handler_instance (self st) = true) /\
  (ready (self st) = true -> configuration_handler_instance (self st) = true) /\
  (forall op, fst (complete (call op st)) <> Raise AttributeError).
Proof.
  intros st.
  destruct (exec_all_agrees validate_string override_server_host ops _
              (mkState AppConfiguration.new w) new_agrees) as (_ & _ & _ & Hh & _).
  fold st in Hh. split; [exact Hh|]. split.
  - unfold ready. intros H. apply andb_true_iff in H as [H _]. apply Hh. exact H.
  - intros op. rewrite (call_returns st op Hh). discriminate.
Qed.

(** X12: a call of the facade only appends to the log and to the calls made
    on the handler: at most one log entry and at most two handler calls. *)
Theorem call_appends (st : State) (op : Op) :
  exists l c,
    log (world (exec st op)) = log (world st) ++ l /\ length l <= 1 /\
    calls (world (exec st op)) = calls (world st) ++ c /\ length c <= 2.
Proof.
  destruct st as [[a r h g i c l] w].
  destruct op; unfold_methods; split_tests;
    first
      [ exists [], []; rewrite !app_nil_r; repeat split; cbn; lia
      | eexists [_], []; rewrite !app_nil_r; repeat split; cbn; lia
      | eexists [], [_]; rewrite !app_nil_r; repeat split; cbn; lia
      | eexists [], [_; _]; rewrite !app_nil_r, <- ?app_assoc; repeat split; cbn; lia ].
Qed.


Lemma init_completed_stays (ops : list Op) (lc : Lifecycle) :
  init_completed lc = true -> init_completed (fold_left advance ops lc) = true.
Proof.
  revert lc. induction ops as [|op ops IH]; intros lc H; [exact H|].
  cbn [fold_left]. apply IH. destruct op; cbn; try exact H.
  - destruct (AppConfiguration.init_accepts _ _ _ _); [reflexivity | exact H].
  - rewrite H. cbn. destruct (AppConfiguration.ids_accepted _ _ _); [reflexivity | exact H].
Qed.

Lemma exec_before_init (st : State) (op : Op) :
  is_initialized (self st) = false ->
  (forall r g k, op = OpInit r g k -> init_accepts r g k = false) ->
  calls (world (exec st op)) = calls (world st) /\
  hstate (world (exec st op)) = hstate (world st) /\
  is_initialized (self (exec st op)) = false /\
  exists m, log (world (exec st op)) = log (world st) ++ m.
Proof.
  destruct st as [[a r h g i c l] w]. cbn [self is_initialized]. intros -> Hinit.
  destruct op.
  - specialize (Hinit _ _ _ eq_refl). unfold AppConfiguration.init_accepts in Hinit.
    unfold_methods.
    destruct (validate_string region0); cbn in *;
      [|repeat split; eexists; reflexivity].
    destruct (validate_string apikey0); cbn in *;
      [|repeat split; eexists; reflexivity].
    destruct (validate_string guid0); cbn in *;
      [discriminate|repeat split; eexists; reflexivity].
  - unfold_methods. cbn. repeat split; eexists; reflexivity.
  - unfold_methods. cbn. repeat split; eexists; reflexivity.
  - unfold_methods. cbn. repeat split; eexists; reflexivity.
  - unfold_methods. cbn. repeat split; eexists; reflexivity.
  - unfold_methods. cbn. repeat split; eexists; reflexivity.
  - unfold_methods. cbn. repeat split; eexists; reflexivity.
  - unfold_methods. cbn. repeat split; eexists; reflexivity.
  - unfold_methods. cbn. repeat split; exists []; rewrite app_nil_r; reflexivity.
  - unfold_methods. cbn. repeat split; exists []; rewrite app_nil_r; reflexivity.
  - unfold_methods. cbn. repeat split; exists []; rewrite app_nil_r; reflexivity.
Qed.

Lemma exec_all_before_init (ops : list Op) (lc : Lifecycle) (st : State) :
  is_initialized (self st) = false ->
  init_completed lc = false ->
  init_completed (fold_left advance ops lc) = false ->
  calls (world (exec_all ops st)) = calls (world st) /\
  hstate (world (exec_all ops st)) = hstate (world st).
Proof.
  revert lc st. induction ops as [|op ops IH]; intros lc st Hi Hlc Hend; [auto|].
  cbn [AppConfiguration.exec_all fold_left] in *.
  change (fold_left exec ops (exec st op)) with (exec_all ops (exec st op)).
  assert (init_completed (advance lc op) = false) as Hstep.
  { destruct (init_completed (advance lc op)) eqn:E; [|reflexivity].
    rewrite (init_completed_stays ops _ E) in Hend. discriminate. }
  assert (forall r g k, op = OpInit r g k -> init_accepts r g k = false) as Hop.
  { intros r g k ->. cbn in Hstep.
    destruct (AppConfiguration.init_accepts validate_string r g k);
      [discriminate | reflexivity]. }
  destruct (exec_before_init st op Hi Hop) as (Hc & Hh & Hi' & _).
  destruct (IH _ _ Hi' Hstep Hend) as [Hc' Hh'].
  split; congruence.
Qed.

(** X7: on a new object, as long as no [init] has passed validation, no call
    of the facade reaches the handler: the calls made on it and its state are
    those of the start. *)
Theorem nothing_reaches_handler_before_init (ops : list Op) (w : World) :
  init_completed (lifecycle ops) = false ->
  calls (world (exec_all ops (mkState AppConfiguration.new w))) = calls w /\
  hstate (world (exec_all ops (mkState AppConfiguration.new w))) = hstate w.
Proof.
  intros H.
  apply (exec_all_before_init ops (mkLifecycle false false false)
           (mkState AppConfiguration.new w)); [reflexivity | reflexivity | exact H].
Qed.

(** X10: [init] does not clear the context flag.  After an [init] with valid
    arguments on a session whose context flag is set, the session is ready at
    once, and [fetch_configurations] calls [load_data] on the handler that
    [init] has just initialized again, with no [set_context] in between. *)
Theorem init_again_keeps_context (region guid apikey : PyVal) (st : State) :
  init_accepts region guid apikey = true ->
  is_initialized_configuration (self st) = true ->
  exists st',
    init region guid apikey st = Done (Ret tt) st' /\
    ready (self st') = true /\
    complete (fetch_configurations st') =
      (Ret tt,
       mkState (self st')
               (mkWorld Feature.t CH (log (world st))
                  (calls (world st) ++
                     [CallInit apikey guid region override_server_host; CallLoadData])
                  (h_load_data
                     (h_init apikey guid region override_server_host
                             (hstate (world st)))))).
Proof.
  intros Hacc Hctx. eexists. split; [apply init_valid_arguments; exact Hacc|].
  destruct st as [[a r h g i c l] w]. cbn in Hctx. subst c.
  split; [reflexivity|]. unfold_methods. cbn. rewrite <- app_assoc. reflexivity.
Qed.

Lemma fetch_once (st : State) :
  ready (self st) = true ->
  configuration_handler_instance (self st) = true ->
  is_loading (self st) = false ->
  exec st OpFetchConfigurations =
    mkState (self st)
            (mkWorld Feature.t CH (log (world st))
               (calls (world st) ++ [CallLoadData])
               (h_load_data (hstate (world st)))).
Proof.
  destruct st as [[a r h g i c l] w]. unfold ready. cbn [self is_initialized
    is_initialized_configuration configuration_handler_instance is_loading].
  intros Hr -> ->. unfold_methods. cbn. rewrite Hr. reflexivity.
Qed.

(** X11: on a ready session with no load running, [n] calls of
    [fetch_configurations] in a row make [n] calls of [load_data], apply the
    load [n] times, log nothing and leave the object as it was. *)
Theorem fetch_configurations_repeated (n : nat) (st : State) :
  ready (self st) = true ->
  configuration_handler_instance (self st) = true ->
  is_loading (self st) = false ->
  exec_all (repeat OpFetchConfigurations n) st =
    mkState (self st)
            (mkWorld Feature.t CH (log (world st))
               (calls (world st) ++ repeat CallLoadData n)
               (Nat.iter n h_load_data (hstate (world st)))).
Proof.
  revert st. induction n as [|n IH]; intros st Hr Hh Hl.
  - cbn. rewrite app_nil_r. destruct st as [s [lg cs hs]]. reflexivity.
  - cbn [repeat AppConfiguration.exec_all fold_left].
    change (fold_left exec (repeat OpFetchConfigurations n) ?x)
      with (exec_all (repeat OpFetchConfigurations n) x).
    rewrite (fetch_once st Hr Hh Hl). rewrite IH by assumption. cbn.
    rewrite <- app_assoc. cbn [app].
    f_equal. f_equal.
    clear. induction n as [|n IHn]; [reflexivity|]. cbn. rewrite <- IHn. reflexivity.
Qed.

End FacadeMore.

(* ===================================================================== *)
(** * More on the API manager and the Feature model *)
(* ===================================================================== *)

Section RemoveNullValues.
Import APIManager.

Local Abbreviation not_none := (fun kv : string * PyVal => negb (is_none (snd kv))).

Lemma filter_not_none_fixed (d : list (string * PyVal)) :
  Forall (fun kv => snd kv <> PNone) d -> filter not_none d = d.
Proof.
  induction 1 as [|[k v] d Hv _ IH]; [reflexivity|].
  cbn in *. destruct v; cbn; try (rewrite IH; reflexivity). congruence.
Qed.

Lemma filter_not_none_clean (d : list (string * PyVal)) :
  Forall (fun kv => snd kv <> PNone) (filter not_none d).
Proof.
  apply Forall_forall. intros [k v] Hin. apply filter_In in Hin as [_ H].
  cbn in *. destruct v; cbn in *; congruence.
Qed.

Lemma dict_lookup_absent (d : list (string * PyVal)) (k : string) :
  ~ In k (map fst d) -> dict_lookup d k = None.
Proof.
  induction d as [|[k' v] d IH]; cbn; [reflexivity|]. intros H.
  destruct (String.eqb_spec k' k) as [->|_]; [tauto|]. apply IH. tauto.
Qed.

Lemma filter_keys_subset (d : list (string * PyVal)) (k : string) :
  In k (map fst (filter not_none d)) -> In k (map fst d).
Proof.
  rewrite !in_map_iff. intros (kv & Hk & Hin). apply filter_In in Hin as [Hin _].
  exists kv. auto.
Qed.

Lemma lookup_after_filter (d : list (string * PyVal)) (k : string) :
  NoDup (map fst d) ->
  dict_lookup (filter not_none d) k =
    match dict_lookup d k with
    | Some PNone => None
    | found => found
    end.
Proof.
  induction d as [|[k' v] d IH]; cbn; [reflexivity|].
  intros Hnd. inversion Hnd as [|? ? Hnotin Hnd']; subst.
  destruct (String.eqb_spec k' k) as [->|Hne].
  - destruct v; cbn; try (rewrite String.eqb_refl; reflexivity).
    apply dict_lookup_absent. intros H. apply Hnotin.
    apply filter_keys_subset. exact H.
  - destruct (is_none v); cbn.
    + apply IH. exact Hnd'.
    + destruct (String.eqb_spec k' k); [contradiction|]. apply IH. exact Hnd'.
Qed.

(** X16: [__remove_null_values] is idempotent and returns what is not a
    dictionary unchanged; of a dictionary it returns one without [None]
    values and no longer than the first, the same one when it held no [None];
    and with distinct keys, a key looks up as before unless its value was
    [None], in which case it is gone. *)
Theorem remove_null_values_cleans :
  (forall v, remove_null_values (remove_null_values v) = remove_null_values v) /\
  (forall v, is_dict v = false -> remove_null_values v = v) /\
  (forall d,
     exists d',
       remove_null_values (PDict d) = PDict d' /\
       Forall (fun kv => snd kv <> PNone) d' /\
       length d' <= length d /\
       (Forall (fun kv => snd kv <> PNone) d -> d' = d) /\
       (NoDup (map fst d) ->
        forall k, dict_lookup d' k =
                  match dict_lookup d k with
                  | Some PNone => None
                  | found => found
                  end)).
Proof.
  split; [|split].
  - intros v. destruct v; try reflexivity. cbn.
    rewrite (filter_not_none_fixed _ (filter_not_none_clean d)). reflexivity.
  - intros v H. destruct v; try reflexivity. discriminate.
  - intros d. eexists. split; [reflexivity|].
    split; [apply filter_not_none_clean|].
    split; [apply filter_length_le|].
    split; [apply filter_not_none_fixed|].
    intros Hnd k. apply lookup_after_filter. exact Hnd.
Qed.

End RemoveNullValues.

Section Requests.
Variable json_dumps : PyVal -> result string.
Variable send_request : APIManager.Request -> result APIManager.DetailedResponse.
Variable str_exc : PyExc -> string.
Variables SDK_NAME version : string.
Import APIManager.

Local Abbreviation encode := (APIManager.encode json_dumps SDK_NAME version).
Local Abbreviation prepare_api_request :=
  (APIManager.prepare_api_request json_dumps send_request str_exc SDK_NAME version).
Local Abbreviation json_headers :=
  [("Content-Type", "application/json"%string);
   ("User-Agent", (SDK_NAME ++ "/" ++ version)%string)].

(** X17: a call of [prepare_api_request] that returns has handed exactly one
    request to the base service, with the method and url it was given, either
    the payload untouched and no header, or the serialization of the cleaned
    dictionary and the JSON headers; it has logged nothing or one debug
    entry.  A call that raises raises what [json.dumps] raised on a non-empty
    dictionary, and has sent and logged nothing. *)
Theorem prepare_api_request_accounts (method url data : PyVal) (n : Net) :
  match fst (prepare_api_request method url data n) with
  | Raise e =>
      snd (prepare_api_request method url data n) = n /\
      truthy data && is_dict data = true /\
      json_dumps (remove_null_values data) = Raise e
  | Ret _ =>
      exists headers body,
        requests (snd (prepare_api_request method url data n)) =
          requests n ++ [mkRequest method url headers body] /\
        (headers = [] /\ body = data /\ truthy data && is_dict data = false \/
         exists s,
           headers = json_headers /\ body = PStr s /\
           json_dumps (remove_null_values data) = Ret s) /\
        (net_log (snd (prepare_api_request method url data n)) = net_log n \/
         exists m,
           net_log (snd (prepare_api_request method url data n)) =
             net_log n ++ [LogDebug m])
  end.
Proof.
  unfold APIManager.prepare_api_request, APIManager.encode.
  destruct (truthy data && is_dict data) eqn:E.
  - destruct (json_dumps (remove_null_values data)) as [s|e] eqn:Ej.
    + destruct (send_request _) as [r|e]; [|destruct e]; cbn;
        eexists _, _; (split; [reflexivity|]);
        (split; [right; eexists; repeat split; reflexivity|]);
        solve [left; reflexivity | right; eexists; reflexivity].
    + cbn. auto.
  - destruct (send_request _) as [r|e]; [|destruct e]; cbn;
      eexists _, _; (split; [reflexivity|]);
      (split; [left; repeat split; reflexivity|]);
      solve [left; reflexivity | right; eexists; reflexivity].
Qed.

(** X18: a non-empty dictionary whose values are all [None] is sent as the
    serialization of the empty dictionary, with the JSON headers (the empty
    dictionary itself is sent as it is, without them). *)
Theorem prepare_api_request_all_none (method url : PyVal) (n : Net)
        (d : list (string * PyVal)) (s : string) :
  d <> [] ->
  Forall (fun kv => snd kv = PNone) d ->
  json_dumps (PDict []) = Ret s ->
  requests (snd (prepare_api_request method url (PDict d) n)) =
    requests n ++ [mkRequest method url json_headers (PStr s)].
Proof.
  intros Hd Hall Hs.
  assert (remove_null_values (PDict d) = PDict []) as Hr.
  { cbn. f_equal. induction Hall as [|[k v] d Hv _ IH]; [reflexivity|].
    cbn in *. subst v. cbn. destruct d; [reflexivity|]. apply IH. discriminate. }
  unfold APIManager.prepare_api_request, APIManager.encode.
  assert (truthy (PDict d) && is_dict (PDict d) = true) as ->
    by (destruct d; [congruence | reflexivity]).
  rewrite Hr, Hs.
  destruct (send_request _) as [r|e]; [|destruct e]; reflexivity.
Qed.

End Requests.

Section ApiManagerClass.
Import APIManagerClass.

Lemma get_instances_uncached (n : nat) (c : Class) :
  instance c = None ->
  fst (get_instances n c) = seq (constructed c) n /\
  instance (snd (get_instances n c)) = None /\
  constructed (snd (get_instances n c)) = constructed c + n /\
  class_log (snd (get_instances n c)) =
    class_log c ++ repeat (LogDebug (Text "Initialised _BaseRequest")) n.
Proof.
  revert c. induction n as [|n IH]; intros c Hc.
  - cbn. rewrite Nat.add_0_r, app_nil_r. auto.
  - cbn [get_instances]. unfold get_instance. rewrite Hc. unfold __init__.
    match goal with |- context [get_instances n ?c1] =>
      destruct (IH c1 Hc) as (Hl & Hi & Hk & Hg);
      destruct (get_instances n c1) as [l c2] end.
    cbn in *. subst l. rewrite Hi, Hk, Hg. rewrite <- app_assoc. cbn.
    repeat split. lia.
Qed.

(** X19: [APIManager.__instance] is never assigned: when it is [None], [n]
    calls of [get_instance] construct [n] objects, all different, log
    "Initialised _BaseRequest" [n] times, and leave [__instance] at [None]. *)
Theorem get_instance_never_stored (n : nat) (c : Class) :
  instance c = None ->
  NoDup (fst (get_instances n c)) /\
  length (fst (get_instances n c)) = n /\
  instance (snd (get_instances n c)) = None /\
  constructed (snd (get_instances n c)) = constructed c + n /\
  class_log (snd (get_instances n c)) =
    class_log c ++ repeat (LogDebug (Text "Initialised _BaseRequest")) n.
Proof.
  intros Hc. destruct (get_instances_uncached n c Hc) as (Hl & Hi & Hk & Hg).
  rewrite Hl. split; [apply seq_NoDup|]. split; [apply length_seq|]. auto.
Qed.

End ApiManagerClass.

Section FeatureMore.
Variable member_value : ConfigurationType -> string.

(** X14: [Feature(d)] is constructed or raises [ValueError], nothing else; it
    raises exactly when the payload has a 'type' that is not [None], not a
    member of [ConfigurationType] and not the value of one. *)
Theorem init_raises_only_value_error (d : list (string * PyVal)) :
  ((exists f, Feature.__init__ member_value d = Ret f) \/
   Feature.__init__ member_value d = Raise ValueError) /\
  (Feature.__init__ member_value d = Raise ValueError <->
   exists v,
     dict_lookup d "type" = Some v /\ v <> PNone /\
     (forall c, v <> PEnum c) /\ (forall c, v <> PStr (member_value c))).
Proof.
  unfold Feature.__init__.
  replace (if negb (is_none (dict_get d "type" PNone)) then dict_get d "type" PNone
           else PEnum NUMERIC) with (Feature.type_argument d)
    by (unfold Feature.type_argument, dict_get;
        destruct (dict_lookup d "type") as [v|]; [destruct v|]; reflexivity).
  unfold Feature.type_argument.
  destruct (dict_lookup d "type") as [v|] eqn:Hv.
  2: { cbn. split; [left; eauto|]. split; [discriminate|]. intros (v & H & _). discriminate. }
  destruct v as [| b | z | s | l | dd | c | o]; cbn.
  all: try (split; [right; reflexivity|]; split; [intros _|reflexivity];
            eexists; split; [reflexivity|]; repeat split; intros; discriminate).
  - split; [left; eauto|]. split; [discriminate|].
    intros (v & [= <-] & Hne & _). congruence.
  - destruct (String.eqb_spec s (member_value BOOLEAN)) as [->|Hb].
    { split; [left; eauto|]. split; [discriminate|].
      intros (v & [= <-] & _ & _ & H). exfalso. apply (H BOOLEAN). reflexivity. }
    destruct (String.eqb_spec s (member_value NUMERIC)) as [->|Hn].
    { split; [left; eauto|]. split; [discriminate|].
      intros (v & [= <-] & _ & _ & H). exfalso. apply (H NUMERIC). reflexivity. }
    destruct (String.eqb_spec s (member_value STRING)) as [->|Hs].
    { split; [left; eauto|]. split; [discriminate|].
      intros (v & [= <-] & _ & _ & H). exfalso. apply (H STRING). reflexivity. }
    split; [right; reflexivity|]. split; [intros _|reflexivity].
    eexists; split; [reflexivity|]. repeat split; try discriminate.
    intros c. destruct c; congruence.
  - split; [left; eauto|]. split; [discriminate|].
    intros (v & [= <-] & _ & H & _). exfalso. apply (H c). reflexivity.
Qed.

(** X15: in a constructed [Feature], [get_enabled_value] and
    [get_disabled_value] return the payload's value, and the builtin class
    [object] when the payload has none; a field the payload gives as [None]
    is returned as [None] by its getter, not as its default, except the type,
    which is NUMERIC. *)
Theorem init_keeps_none_values (d : list (string * PyVal)) (f : Feature.t) :
  Feature.__init__ member_value d = Ret f ->
  Feature.get_enabled_value f = dict_get d "enabled_value" py_object /\
  Feature.get_disabled_value f = dict_get d "disabled_value" py_object /\
  (dict_lookup d "enabled_value" = None -> Feature.get_enabled_value f = py_object) /\
  (dict_lookup d "disabled_value" = None -> Feature.get_disabled_value f = py_object) /\
  (dict_lookup d "enabled" = Some PNone -> Feature.is_enabled f = PNone) /\
  (dict_lookup d "name" = Some PNone -> Feature.get_feature_name f = PNone) /\
  (dict_lookup d "feature_id" = Some PNone -> Feature.get_feature_id f = PNone) /\
  (dict_lookup d "segment_rules" = Some PNone -> Feature.get_segment_rules f = PNone) /\
  (dict_lookup d "type" = Some PNone -> Feature.get_feature_data_type f = NUMERIC).
Proof.
  unfold Feature.__init__.
  destruct (Feature.ConfigurationType_call member_value _) as [c|e] eqn:Hc; [|discriminate].
  intros [= <-]. cbn. unfold dict_get in *.
  repeat split; try (intros ->; reflexivity).
  intros H. rewrite H in Hc. cbn in Hc. congruence.
Qed.

End FeatureMore.

Section FeatureEval.
Context {CH : ConfigurationHandler Feature.t}.

(** X13: [get_current_value] turns away exactly the entity ids that are
    falsy ([None], the empty string, but also 0, [False], an empty list or
    dictionary), so that the test [entity_id == ""] of line 77 adds nothing;
    for every other id it makes one call of [feature_evaluation] on the
    handler with the feature and its two arguments, returns what the handler
    returns and logs nothing. *)
Theorem get_current_value_decides
        (self : Feature.t) (entity_id entity_attributes : PyVal) (w : World) :
  (eq_empty_str entity_id = true -> truthy entity_id = false) /\
  (truthy entity_id = false ->
   Feature.get_current_value self entity_id entity_attributes w =
     (PNone,
      mkWorld Feature.t CH
        (log w ++ [LogError (Text "A valid entity id should be passed for this method.")])
        (calls w) (hstate w))) /\
  (truthy entity_id = true ->
   Feature.get_current_value self entity_id entity_attributes w =
     (fst (h_feature_evaluation self entity_id entity_attributes (hstate w)),
      mkWorld Feature.t CH (log w)
        (calls w ++ [CallFeatureEvaluation self entity_id entity_attributes])
        (snd (h_feature_evaluation self entity_id entity_attributes (hstate w))))).
Proof.
  assert (eq_empty_str entity_id = true -> truthy entity_id = false) as Hred.
  { destruct entity_id; cbn; try discriminate. intros ->. reflexivity. }
  split; [exact Hred|]. unfold Feature.get_current_value. split.
  - intros ->. reflexivity.
  - intros Ht. rewrite Ht.
    destruct (eq_empty_str entity_id) eqn:E; [rewrite (Hred eq_refl) in Ht; discriminate|].
    reflexivity.
Qed.

End FeatureEval.

(* ===================================================================== *)
(** * The API exception *)
(* ===================================================================== *)

Section ApiExceptionFacts.
Import ApiException.

Lemma dict_contains (d : list (string * PyVal)) (k : string) :
  contains (PDict d) k =
  Value (match dict_lookup d k with Some _ => true | None => false end).
Proof. reflexivity. Qed.

(** X20: an [ApiException] built without a message from a response whose
    JSON body is an object with an 'errors' entry takes its message from that
    entry alone, whatever else the body holds and whatever the status: the
    'message' of the first error ([None] when it has none) when the entry is
    a list that starts with an object; the response text, or "Unknown error"
    when the text is empty, when the list is empty or starts with anything
    else; "Unknown error" when the entry is not a list. *)
Theorem message_from_errors (code m : PyVal) (r : Response)
        (d : list (string * PyVal)) (v : PyVal) :
  truthy m = false ->
  json r = Value (PDict d) ->
  dict_lookup d "errors" = Some v ->
  message (__init__ code m (Some r)) =
    match v with
    | PList (PDict e :: _) => dict_get e "message" PNone
    | PList _ => text_or_unknown r
    | _ => unknown_error
    end.
Proof.
  intros Hm Hj Hv. unfold __init__. cbn [message]. rewrite Hm.
  unfold _get_error_message, try_error_message. rewrite Hj. cbn [and_then].
  rewrite dict_contains, Hv. cbn [and_then get_item]. rewrite Hv. cbn [and_then].
  destruct v as [| | | |l| | |]; try reflexivity.
  destruct l as [|x l]; [reflexivity|].
  destruct x; reflexivity.
Qed.

(** X21: without an 'errors' entry, the message is the value of the first of
    'error', 'message' and 'errorMessage' that the body has; when it has
    none, the fixed text for status 401, and "Unknown error" for any other
    status. *)
Theorem message_from_other_keys (code m : PyVal) (r : Response)
        (d : list (string * PyVal)) :
  truthy m = false ->
  json r = Value (PDict d) ->
  dict_lookup d "errors" = None ->
  message (__init__ code m (Some r)) =
    match dict_lookup d "error" with
    | Some v => v
    | None =>
        match dict_lookup d "message" with
        | Some v => v
        | None =>
            match dict_lookup d "errorMessage" with
            | Some v => v
            | None => if (status_code r =? 401)%Z then unauthorized else unknown_error
            end
        end
    end.
Proof.
  intros Hm Hj He. unfold __init__. cbn [message]. rewrite Hm.
  unfold _get_error_message, try_error_message. rewrite Hj. cbn [and_then].
  rewrite !dict_contains, He. cbn [and_then get_item].
  destruct (dict_lookup d "error") as [v|]; cbn [and_then]; [reflexivity|].
  destruct (dict_lookup d "message") as [v|]; cbn [and_then]; [reflexivity|].
  destruct (dict_lookup d "errorMessage") as [v|]; cbn [and_then]; [reflexivity|].
  destruct (status_code r =? 401)%Z; reflexivity.
Qed.

(** X22: when the body is not a JSON object the message never comes out of
    the body: with no JSON body, or one that is [null], a boolean or a
    number, it is the response text, or "Unknown error" when the text is
    empty; for a string or a list it is that or the message by status. *)
Theorem message_without_json_object (code m : PyVal) (r : Response) :
  truthy m = false ->
  (forall d, json r <> Value (PDict d)) ->
  (* no body, or a scalar body *)
  ((match json r with
    | Raised _ | Value PNone | Value (PBool _) | Value (PInt _) => True
    | _ => False
    end) ->
   message (__init__ code m (Some r)) = text_or_unknown r) /\
  (* any body that is not an object *)
  (message (__init__ code m (Some r)) = text_or_unknown r \/
   message (__init__ code m (Some r)) =
     (if (status_code r =? 401)%Z then unauthorized else unknown_error)).
Proof.
  intros Hm Hd. unfold __init__. cbn [message]. rewrite Hm.
  unfold _get_error_message, try_error_message.
  destruct (json r) as [v|c] eqn:Hj; cbn [and_then].
  2: { split; [intros _; reflexivity | left; reflexivity]. }
  destruct v as [| b | z | s | l | d | c | o]; cbn [and_then contains];
    try (split; [intros H; try reflexivity; contradiction | left; reflexivity]).
  - (* a string *)
    split; [intros []|].
    repeat (match goal with
            | |- context [if ?b then _ else _] =>
                lazymatch b with
                | is_substring _ _ => destruct b; cbn [and_then get_item]
                end
            end); try (left; reflexivity).
    right. destruct (status_code r =? 401)%Z; reflexivity.
  - (* a list *)
    split; [intros []|].
    repeat (match goal with
            | |- context [if existsb ?f ?l then _ else _] =>
                destruct (existsb f l); cbn [and_then get_item]
            end); try (left; reflexivity).
    right. destruct (status_code r =? 401)%Z; reflexivity.
  - exfalso. apply (Hd d). reflexivity.
Qed.

End ApiExceptionFacts.

(* ===================================================================== *)
(** * Examples for the later sections *)
(* ===================================================================== *)

Lemma init_stores_credentials_witness :
  exists st',
    AppConfiguration.init Models.validate_string PNone
      (PStr "us-south") (PStr "guid_value") (PStr "apikey_value") Models.session0 =
      AppConfiguration.Done (Ret tt) st' /\
    AppConfiguration.get_region st' = AppConfiguration.Done (Ret (PStr "us-south")) st' /\
    AppConfiguration.get_guid st' = AppConfiguration.Done (Ret (PStr "guid_value")) st' /\
    AppConfiguration.get_apikey st' =
      AppConfiguration.Done (Ret (PStr "apikey_value")) st'.
Proof.
  destruct (init_stores_credentials (CH := Models.handler) Models.validate_string PNone
              (PStr "us-south") (PStr "guid_value") (PStr "apikey_value")
              Models.session0 eq_refl)
    as (st' & Hinit & Hr & Hg & Hk & _).
  exists st'. auto.
Defined.

Lemma exec_keeps_flags_witness :
  AppConfiguration.is_initialized
    (AppConfiguration.self
       (AppConfiguration.exec Models.validate_string PNone Examples.loaded_session
          (AppConfiguration.OpInit PNone PNone PNone))) = true.
Proof.
  apply (exec_keeps_flags (CH := Models.handler) Models.validate_string PNone
           Examples.loaded_session (AppConfiguration.OpInit PNone PNone PNone)).
  reflexivity.
Defined.

Lemma set_context_binds_and_loads_witness :
  calls (AppConfiguration.world
           (snd (AppConfiguration.complete
                   (AppConfiguration.set_context Models.validate_string
                      (PStr "collectionId") (PStr "environmentId")
                      (PStr "user.json") (PBool false)
                      Examples.initialized_session)))) =
    [CallInit (PStr "apikey_value") (PStr "guid_value") (PStr "us-south") PNone;
     CallSetContext (PStr "collectionId") (PStr "environmentId")
                    (PStr "user.json") (PBool false);
     CallLoadData].
Proof.
  rewrite (set_context_binds_and_loads (CH := Models.handler) Models.validate_string
             (PStr "collectionId") (PStr "environmentId") (PStr "user.json") (PBool false)
             Examples.initialized_session eq_refl eq_refl eq_refl eq_refl eq_refl).
  reflexivity.
Defined.

Lemma set_context_refusals_witness :
  AppConfiguration.set_context Models.validate_string
    (PStr "collectionId") (PStr "") PNone (PBool true) Examples.initialized_session =
  AppConfiguration.Done (Ret tt)
    (AppConfiguration.mkState
       (AppConfiguration.self Examples.initialized_session)
       (mkWorld Feature.t Models.handler
          (log (AppConfiguration.world Examples.initialized_session) ++
             [LogError ENVIRONMENT_ID_VALUE_ERROR])
          (calls (AppConfiguration.world Examples.initialized_session))
          (hstate (AppConfiguration.world Examples.initialized_session)))).
Proof.
  apply (set_context_refusals (CH := Models.handler) Models.validate_string
           (PStr "collectionId") (PStr "") PNone (PBool true)
           Examples.initialized_session); reflexivity.
Defined.

Lemma register_listener_when_ready_witness :
  AppConfiguration.register_configuration_update_listener (PObject 7)
    Examples.initialized_session =
  AppConfiguration.Done (Ret tt)
    (AppConfiguration.mkState
       (AppConfiguration.self Examples.initialized_session)
       (mkWorld Feature.t Models.handler
          (log (AppConfiguration.world Examples.initialized_session) ++
             [LogError COLLECTION_INIT_ERROR])
          (calls (AppConfiguration.world Examples.initialized_session))
          (hstate (AppConfiguration.world Examples.initialized_session)))).
Proof.
  apply (register_listener_when_ready (CH := Models.handler) (PObject 7)
           Examples.initialized_session).
  reflexivity.
Defined.

Lemma handler_present_when_called_witness :
  configuration_handler_instance (self Examples.loaded_session) = true.
Proof.
  apply (handler_present_when_called (CH := Models.handler) Models.validate_string PNone
           [Models.init_us_south; Models.context_from_file] Models.world0).
  reflexivity.
Defined.

Lemma nothing_reaches_handler_before_init_witness :
  calls (AppConfiguration.world
           (AppConfiguration.exec_all Models.validate_string PNone
              [AppConfiguration.OpInit PNone (PStr "guid_value") (PStr "apikey_value");
               Models.context_from_file; AppConfiguration.OpFetchConfigurations;
               AppConfiguration.OpRegisterListener (PObject 7);
               AppConfiguration.OpGetFeatures]
              Models.session0)) = [] /\
  hstate (AppConfiguration.world
            (AppConfiguration.exec_all Models.validate_string PNone
               [AppConfiguration.OpInit PNone (PStr "guid_value") (PStr "apikey_value");
                Models.context_from_file; AppConfiguration.OpFetchConfigurations;
                AppConfiguration.OpRegisterListener (PObject 7);
                AppConfiguration.OpGetFeatures]
               Models.session0)) = Models.empty_cache.
Proof.
  apply (nothing_reaches_handler_before_init (CH := Models.handler)
           Models.validate_string PNone
           [AppConfiguration.OpInit PNone (PStr "guid_value") (PStr "apikey_value");
            Models.context_from_file; AppConfiguration.OpFetchConfigurations;
            AppConfiguration.OpRegisterListener (PObject 7);
            AppConfiguration.OpGetFeatures]
           Models.world0).
  reflexivity.
Defined.

Lemma init_again_keeps_context_witness :
  exists st',
    AppConfiguration.init Models.validate_string PNone
      (PStr "eu-gb") (PStr "guid_2") (PStr "apikey_2") Examples.loaded_session =
      AppConfiguration.Done (Ret tt) st' /\
    AppConfiguration.ready (AppConfiguration.self st') = true.
Proof.
  destruct (init_again_keeps_context (CH := Models.handler) Models.validate_string PNone
              (PStr "eu-gb") (PStr "guid_2") (PStr "apikey_2")
              Examples.loaded_session eq_refl eq_refl)
    as (st' & Hinit & Hready & _).
  exists st'. auto.
Defined.

Lemma fetch_configurations_repeated_witness :
  calls (AppConfiguration.world
           (AppConfiguration.exec_all Models.validate_string PNone
              (repeat AppConfiguration.OpFetchConfigurations 3)
              Examples.loaded_session)) =
    calls (AppConfiguration.world Examples.loaded_session) ++
      [CallLoadData; CallLoadData; CallLoadData].
Proof.
  rewrite (fetch_configurations_repeated (CH := Models.handler)
             Models.validate_string PNone 3 Examples.loaded_session
             eq_refl eq_refl eq_refl).
  reflexivity.
Defined.

Lemma get_current_value_decides_witness :
  Feature.get_current_value (CH := Models.handler) Models.f1 (PInt 0) (PDict [])
                            Models.world0 =
    (PNone,
     mkWorld Feature.t Models.handler
       [LogError (Text "A valid entity id should be passed for this method.")]
       [] Models.empty_cache).
Proof.
  apply (get_current_value_decides (CH := Models.handler)
           Models.f1 (PInt 0) (PDict []) Models.world0).
  reflexivity.
Defined.

Lemma init_raises_only_value_error_witness :
  Feature.__init__ Models.member_value [("type", PStr "Boolean")] = Raise ValueError.
Proof.
  apply (init_raises_only_value_error Models.member_value [("type", PStr "Boolean")]).
  exists (PStr "Boolean").
  split; [reflexivity|]. split; [discriminate|]. split; [discriminate|].
  intros c; destruct c; discriminate.
Defined.

Lemma init_keeps_none_values_witness :
  exists f,
    Feature.__init__ Models.member_value Examples.payload_of_nones = Ret f /\
    Feature.is_enabled f = PNone /\
    Feature.get_enabled_value f = py_object /\
    Feature.get_feature_data_type f = NUMERIC.
Proof.
  eexists. split; [reflexivity|].
  destruct (init_keeps_none_values Models.member_value Examples.payload_of_nones _ eq_refl)
    as (_ & _ & Hev & _ & Hen & _ & _ & _ & Hty).
  split; [apply Hen; reflexivity|]. split; [apply Hev; reflexivity|].
  apply Hty; reflexivity.
Defined.

Lemma remove_null_values_cleans_witness :
  APIManager.remove_null_values (PList [PNone; PInt 1]) = PList [PNone; PInt 1].
Proof.
  apply remove_null_values_cleans. reflexivity.
Defined.

Lemma prepare_api_request_all_none_witness :
  APIManager.requests
    (snd (APIManager.prepare_api_request
            Models.json_dumps Models.send_request Models.str_exc
            "appconfiguration-python-sdk" "0.1.0"
            (PStr "POST") (PStr "https://service/events")
            (PDict [("segment", PNone); ("rule", PNone)]) Models.net0)) =
    [APIManager.mkRequest (PStr "POST") (PStr "https://service/events")
       [("Content-Type", "application/json"%string);
        ("User-Agent", "appconfiguration-python-sdk/0.1.0"%string)]
       (PStr "{}")].
Proof.
  apply (prepare_api_request_all_none
           Models.json_dumps Models.send_request Models.str_exc
           "appconfiguration-python-sdk" "0.1.0"
           (PStr "POST") (PStr "https://service/events") Models.net0
           [("segment", PNone); ("rule", PNone)] "{}").
  - discriminate.
  - repeat constructor.
  - reflexivity.
Defined.

Lemma get_instance_never_stored_witness :
  fst (APIManagerClass.get_instances 3 Examples.api_manager0) = [0; 1; 2] /\
  APIManagerClass.instance
    (snd (APIManagerClass.get_instances 3 Examples.api_manager0)) = None.
Proof.
  destruct (get_instance_never_stored 3 Examples.api_manager0 eq_refl)
    as (_ & _ & Hnone & _).
  split; [reflexivity | exact Hnone].
Defined.

Lemma message_from_errors_witness :
  ApiException.message
    (ApiException.__init__ (PInt 401) PNone (Some Examples.response_errors)) =
    PStr "The API key is not valid".
Proof.
  rewrite (message_from_errors (PInt 401) PNone Examples.response_errors _ _
             eq_refl eq_refl eq_refl).
  reflexivity.
Defined.

Lemma message_from_other_keys_witness :
  ApiException.message
    (ApiException.__init__ (PInt 404) (PStr "") (Some Examples.response_message)) =
    PStr "Not Found".
Proof.
  rewrite (message_from_other_keys (PInt 404) (PStr "") Examples.response_message _
             eq_refl eq_refl eq_refl).
  reflexivity.
Defined.

Lemma message_without_json_object_witness :
  ApiException.message
    (ApiException.__init__ (PInt 502) PNone (Some Examples.response_html)) =
    PStr "Bad Gateway".
Proof.
  destruct (message_without_json_object (PInt 502) PNone Examples.response_html eq_refl)
    as [Htext _].
  - intros d. discriminate.
  - rewrite Htext; [reflexivity | exact I].
Defined.
